(** * PPE detection pipeline (yolo/app.py): a shallow embedding

    The development follows the video-processing half of [yolo/app.py]:
    [get_video_properties], [process_video_with_yolo], [encode_to_h264],
    [update_progress] and [process_uploaded_video].

    The three wrapped components (the cv2 decoder and writer, the YOLO model
    and the ffmpeg executable) are inputs of the model: a decoded video is
    the list of frames its reads yield plus the four float properties that
    [cap.get] reports, a model is its per-frame result and label table, and
    the transcoder is the outcome of the launched process.  Every call the
    code makes to them is recorded, in program order, in a trace of
    events. *)

From Stdlib Require Import ZArith SpecFloat.
From stdpp Require Import gmap strings list fin_maps.

Local Open Scope Z_scope.

(** ** Python values *)

Module Py.

(** The exceptions the modelled code can raise by itself. *)
Inductive Exc : Type :=
| ZeroDivisionError
| ValueError          (* int(nan) *)
| OverflowError       (* int(inf) *)
| CalledProcessError (returncode : Z).

(** A Python number as [get_video_properties] handles them: [cap.get]
    yields a C double, [Config.DEFAULT_FPS] is the int 25. *)
Inductive Num : Type :=
| Int (z : Z)
| Float (x : spec_float).

(** [bool(x)] of a float: only the two zeros are falsy (a NaN is truthy). *)
Definition float_truthy (x : spec_float) : bool :=
  match x with
  | S754_zero _ => false
  | _ => true
  end.

(** [x or d] with [x] a float and [d] an int. *)
Definition float_or (x : spec_float) (d : Z) : Num :=
  if float_truthy x then Float x else Int d.

(** [int(x)] of a float: truncation towards zero; NaN and the infinities
    raise.  A finite float [S754_finite s m e] is [(-1)^s * m * 2^e]. *)
Definition int_of_float (x : spec_float) : Exc + Z :=
  match x with
  | S754_zero _ => inr 0
  | S754_nan => inl ValueError
  | S754_infinity _ => inl OverflowError
  | S754_finite s m e =>
      let mag :=
        if 0 <=? e then Z.pos m * 2 ^ e else Z.pos m / 2 ^ (- e) in
      inr (if s then - mag else mag)
  end.

(** The integer [int(x)] returns when it returns (0 stands in for the
    raising cases). *)
Definition truncate (x : spec_float) : Z :=
  match int_of_float x with
  | inr z => z
  | inl _ => 0
  end.

Definition is_finite (x : spec_float) : bool :=
  match x with
  | S754_zero _ | S754_finite _ _ _ => true
  | _ => false
  end.

(** [a / b] on ints is true division; it is kept exact, as a fraction
    [(numerator, denominator)], and raises on a zero divisor. *)
Definition truediv (a b : Z) : Exc + (Z * Z) :=
  if b =? 0 then inl ZeroDivisionError else inr (a, b).

End Py.

(** ** collections.Counter *)

Module Counter.

(** A Counter over class names: a dict from name to a positive count;
    [c[k]] of a missing key is 0. *)
Abbreviation t := (gmap string nat).

Definition get (c : t) (k : string) : nat := default 0%nat (c !! k).

(** [Counter(names)]: one increment per element, left to right. *)
Definition of_list (names : list string) : t :=
  foldl (fun acc k => <[k := S (get acc k)]> acc) ∅ names.

(** [stats.update(counts)]: [stats[k] = n + stats.get(k, 0)] for every
    item [(k, n)] of [counts]. *)
Definition update (stats counts : t) : t :=
  map_fold (fun k n acc => <[k := (n + get acc k)%nat]> acc) stats counts.

End Counter.

(** ** Effects: a trace of calls, and exceptions *)

(** A computation yields the events it performed, in order, and either a
    value or the exception that stopped it. *)
Definition W (E A : Type) : Type := list E * (Py.Exc + A).

Definition emit {E} (e : E) : W E unit := ([e], inr tt).

Definition raise {E A} (x : Py.Exc) : W E A := ([], inl x).

Definition lift_exc {E A} (r : Py.Exc + A) : W E A := ([], r).

#[global] Instance W_ret {E} : MRet (W E) := fun A a => ([], inr a).

#[global] Instance W_bind {E} : MBind (W E) := fun A B k m =>
  match m with
  | (t, inr a) => let '(t', r) := k a in (t ++ t', r)
  | (t, inl x) => (t, inl x)
  end.

Definition trace_of {E A} (m : W E A) : list E := m.1.

Definition outcome {E A} (m : W E A) : Py.Exc + A := m.2.

(** The events of a callee, seen from its caller. *)
Definition embed {E E' A} (f : E -> E') (m : W E A) : W E' A :=
  (f <$> m.1, m.2).

(** ** Configuration *)

Module Config.

Definition UPLOAD_DIR : string := "uploads".
Definition OUTPUT_DIR : string := "outputs".

(** 0.4 as a binary64 float: 7205759403792794 * 2^-54. *)
Definition CONFIDENCE_THRESHOLD : spec_float :=
  S754_finite false 7205759403792794 (-54).
Definition DEFAULT_FPS : Z := 25.
Definition VIDEO_CODEC : string := "mp4v".
Definition H264_CODEC : string := "libx264".
Definition PIXEL_FORMAT : string := "yuv420p".

End Config.

(** [Path(dir) / name], rendered with [str] (POSIX separator). *)
Definition path_join (dir name : string) : string := dir +:+ "/" +:+ name.

(** The three paths [process_uploaded_video] derives from the run's id. *)
Definition upload_path (uid : string) : string :=
  path_join Config.UPLOAD_DIR (uid +:+ ".mp4").
Definition temp_path (uid : string) : string :=
  path_join Config.OUTPUT_DIR (uid +:+ "_temp.mp4").
Definition final_path (uid : string) : string :=
  path_join Config.OUTPUT_DIR (uid +:+ "_final.mp4").

(** ** The wrapped components *)

(** What the decoder delivers for a video file: the frames successive
    [cap.read()] calls yield before the first [ret = False], and the raw
    doubles of the four [cap.get] properties.  The frame count is container
    metadata: nothing ties it to the number of frames actually read. *)
Record Video (Frame : Type) : Type := mkVideo {
  frames : list Frame;
  CAP_PROP_FPS : spec_float;
  CAP_PROP_FRAME_WIDTH : spec_float;
  CAP_PROP_FRAME_HEIGHT : spec_float;
  CAP_PROP_FRAME_COUNT : spec_float
}.
Arguments mkVideo {Frame}.
Arguments frames {Frame}.
Arguments CAP_PROP_FPS {Frame}.
Arguments CAP_PROP_FRAME_WIDTH {Frame}.
Arguments CAP_PROP_FRAME_HEIGHT {Frame}.
Arguments CAP_PROP_FRAME_COUNT {Frame}.

(** [results[0]] of one model call: the class index of every box
    ([boxes.cls ... astype(int)]; [len(boxes)] is its length) and the
    rendered frame [plot()]. *)
Record Results (Frame : Type) : Type := mkResults {
  boxes_cls : list Z;
  plot : Frame
}.
Arguments mkResults {Frame}.
Arguments boxes_cls {Frame}.
Arguments plot {Frame}.

(** The loaded YOLO model: [model(frame, conf=..., verbose=False)] and its
    label table [model.names], which covers every class index it emits. *)
Record YOLO (Frame : Type) : Type := mkYOLO {
  predict : Frame -> spec_float -> Results Frame;
  names : Z -> string
}.
Arguments mkYOLO {Frame}.
Arguments predict {Frame}.
Arguments names {Frame}.

(** ** Events *)

Inductive LogMsg : Type :=
| LogText (msg : string)
| LogFrame (frame_id total_frames : Z) (counts : gmap string nat).

(** The value handed to [progress_bar.progress]: the quotient
    [current / total], or the int 0 of the [else] branch. *)
Inductive Progress : Type :=
| Quotient (num den : Z)
| ProgressInt (z : Z).

(** Calls into the web framework. *)
Inductive UIEvent : Type :=
| StProgress (value : Z)                 (* st.progress(0) *)
| StEmpty                                (* st.empty() *)
| StSpinner (text : string)              (* with st.spinner(...) *)
| ProgressBarSet (value : Progress)      (* progress_bar.progress(v) *)
| StatusText (current total : Z)         (* status_text.text(f"...") *)
| ProgressBarEmpty                       (* progress_bar.empty() *)
| StatusEmpty.                           (* status_text.empty() *)

Inductive Event (Frame : Type) : Type :=
| CapOpen (path : string)                       (* cv2.VideoCapture(path) *)
| CapGet (path : string)                        (* the four cap.get(...) *)
| CapRead (ret : option Frame)                  (* cap.read() *)
| CapRelease (path : string)
| WriterOpen (path : string) (fourcc : Z) (fps : Py.Num) (size : Z * Z)
| WriterWrite (annotated : Frame)               (* out.write(annotated) *)
| WriterRelease
| Infer (frame : Frame) (conf : spec_float)     (* model(frame, conf=...) *)
| StatsUpdate (counts : gmap string nat)        (* stats.update(counts) *)
| Log (msg : LogMsg)                            (* logger.info(...) *)
| Callback (frame_id total_frames : Z)          (* progress_callback(..) *)
| UI (u : UIEvent)
| FileSave (path : string)                      (* save_uploaded_file *)
| SubprocessRun (cmd : list string) (check : bool) (returncode : Z).
Arguments CapOpen {Frame}.
Arguments CapGet {Frame}.
Arguments CapRead {Frame}.
Arguments CapRelease {Frame}.
Arguments WriterOpen {Frame}.
Arguments WriterWrite {Frame}.
Arguments WriterRelease {Frame}.
Arguments Infer {Frame}.
Arguments StatsUpdate {Frame}.
Arguments Log {Frame}.
Arguments Callback {Frame}.
Arguments UI {Frame}.
Arguments FileSave {Frame}.
Arguments SubprocessRun {Frame}.

(** A progress callback: its own effects are framework calls. *)
Definition ProgressCallback : Type := Z -> Z -> W UIEvent unit.

(** [cv2.VideoWriter_fourcc(c1, c2, c3, c4)]. *)
Definition VideoWriter_fourcc (codec : string) : Z :=
  match Z.of_N ∘ Ascii.N_of_ascii <$> String.list_ascii_of_string codec with
  | [c1; c2; c3; c4] =>
      Z.lor (Z.lor c1 (Z.shiftl c2 8)) (Z.lor (Z.shiftl c3 16) (Z.shiftl c4 24))
  | _ => 0
  end.

(** [subprocess.run(cmd, check=...)]: the exit status of the launched
    process is only looked at when [check] is set.  With both output
    streams sent to [DEVNULL], the exit status is all the caller could
    learn of the process. *)
Definition subprocess_run {Frame} (os_exec : list string -> Z)
    (cmd : list string) (check : bool) : W (Event Frame) Z :=
  let returncode := os_exec cmd in
  _ ← emit (SubprocessRun cmd check returncode);
  if check && negb (returncode =? 0)
  then raise (Py.CalledProcessError returncode)
  else mret returncode.

(** ** The pipeline *)

Section Pipeline.

Context {Frame : Type}.

(** The environment of one run: what [cv2.VideoCapture(path)] decodes at
    a path, the exit status of a launched command, the path returned by
    [imageio_ffmpeg.get_ffmpeg_exe()] and the string of [uuid.uuid4()]. *)
Variable cv2_VideoCapture : string -> Video Frame.
Variable os_exec : list string -> Z.
Variable ffmpeg_exe : string.
Variable uuid4 : string.

Definition save_uploaded_file (destination : string) : W (Event Frame) unit :=
  _ ← emit (FileSave destination);
  emit (Log (LogText ("Saved uploaded file to " +:+ destination))).

Definition get_video_properties (video_path : string)
    : W (Event Frame) (Py.Num * Z * Z * Z) :=
  _ ← emit (CapOpen video_path);
  let cap := cv2_VideoCapture video_path in
  _ ← emit (CapGet video_path);
  let fps := Py.float_or (CAP_PROP_FPS cap) Config.DEFAULT_FPS in
  width ← lift_exc (Py.int_of_float (CAP_PROP_FRAME_WIDTH cap));
  height ← lift_exc (Py.int_of_float (CAP_PROP_FRAME_HEIGHT cap));
  total_frames ← lift_exc (Py.int_of_float (CAP_PROP_FRAME_COUNT cap));
  _ ← emit (CapRelease video_path);
  mret (fps, width, height, total_frames).

(** [if progress_callback and total_frames > 0: progress_callback(...)]. *)
Definition report_progress (progress_callback : option ProgressCallback)
    (frame_id total_frames : Z) : W (Event Frame) unit :=
  match progress_callback with
  | Some callback =>
      if 0 <? total_frames then
        _ ← emit (Callback frame_id total_frames);
        embed UI (callback frame_id total_frames)
      else mret tt
  | None => mret tt
  end.

(** The [while True] loop.  [cap] is the capture's state, the frames it has
    still to yield: [cap.read()] pops the first one, and on an exhausted
    capture returns [ret = False], which is the loop's only exit. *)
Fixpoint frame_loop (model : YOLO Frame)
    (progress_callback : option ProgressCallback) (total_frames : Z)
    (cap : list Frame) (stats : gmap string nat) (frame_id : Z)
    : W (Event Frame) (gmap string nat) :=
  match cap with
  | [] =>
      _ ← emit (CapRead None);
      mret stats
  | frame :: cap =>
      _ ← emit (CapRead (Some frame));
      let frame_id := frame_id + 1 in
      _ ← emit (Infer frame Config.CONFIDENCE_THRESHOLD);
      let results := predict model frame Config.CONFIDENCE_THRESHOLD in
      stats ←
        (if (0 <? length (boxes_cls results))%nat then
           let classes := boxes_cls results in
           let names := names model <$> classes in
           let counts := Counter.of_list names in
           _ ← emit (StatsUpdate counts);
           _ ← emit (Log (LogFrame frame_id total_frames counts));
           mret (Counter.update stats counts)
         else mret stats);
      _ ← report_progress progress_callback frame_id total_frames;
      let annotated := plot results in
      _ ← emit (WriterWrite annotated);
      frame_loop model progress_callback total_frames cap stats frame_id
  end.

Definition process_video_with_yolo (input_path output_path : string)
    (model : YOLO Frame) (progress_callback : option ProgressCallback)
    : W (Event Frame) (gmap string nat) :=
  let stats : gmap string nat := ∅ in
  _ ← emit (CapOpen input_path);
  let cap := frames (cv2_VideoCapture input_path) in
  '(fps, width, height, total_frames) ← get_video_properties input_path;
  _ ← emit (WriterOpen output_path (VideoWriter_fourcc Config.VIDEO_CODEC)
              fps (width, height));
  let frame_id := 0 in
  _ ← emit (Log (LogText "Starting PPE detection"));
  stats ← frame_loop model progress_callback total_frames cap stats frame_id;
  _ ← emit (CapRelease input_path);
  _ ← emit WriterRelease;
  _ ← emit (Log (LogText "PPE detection completed"));
  mret stats.

Definition h264_command (input_path output_path : string) : list string :=
  [ ffmpeg_exe; "-y";
    "-i"; input_path;
    "-vcodec"; Config.H264_CODEC;
    "-pix_fmt"; Config.PIXEL_FORMAT;
    "-movflags"; "+faststart";
    output_path ].

Definition encode_to_h264 (input_path output_path : string)
    : W (Event Frame) unit :=
  let cmd := h264_command input_path output_path in
  _ ← emit (Log (LogText "Starting H.264 encoding"));
  _ ← subprocess_run os_exec cmd false;
  emit (Log (LogText "H.264 encoding completed")).

(** The closure [update_progress] of [process_uploaded_video]. *)
Definition update_progress (current total : Z) : W UIEvent unit :=
  progress ←
    (if 0 <? total then
       '(num, den) ← lift_exc (Py.truediv current total);
       mret (Quotient num den)
     else mret (ProgressInt 0));
  _ ← emit (ProgressBarSet progress);
  emit (StatusText current total).

(** The spinner texts are given without their leading pictograph. *)
Definition process_uploaded_video (model : YOLO Frame)
    : W (Event Frame) (string * string * gmap string nat) :=
  let uid := uuid4 in
  let input_path := upload_path uid in
  let temp_path := temp_path uid in
  let final_path := final_path uid in
  _ ← save_uploaded_file input_path;
  _ ← emit (UI (StProgress 0));
  _ ← emit (UI StEmpty);
  _ ← emit (UI (StSpinner "Analyzing video for PPE compliance..."));
  stats ← process_video_with_yolo input_path temp_path model
            (Some update_progress);
  _ ← emit (UI ProgressBarEmpty);
  _ ← emit (UI StatusEmpty);
  _ ← emit (UI (StSpinner "Encoding output video..."));
  _ ← encode_to_h264 temp_path final_path;
  mret (input_path, final_path, stats).

End Pipeline.

(** ** Observations on traces *)

Section Observations.

Context {Frame : Type}.

Definition inferred_frames (t : list (Event Frame)) : list Frame :=
  omap (fun e => match e with Infer f _ => Some f | _ => None end) t.

Definition reads (t : list (Event Frame)) : list (option Frame) :=
  omap (fun e => match e with CapRead r => Some r | _ => None end) t.

Definition written_frames (t : list (Event Frame)) : list Frame :=
  omap (fun e => match e with WriterWrite a => Some a | _ => None end) t.

Definition stats_updates (t : list (Event Frame)) : list (gmap string nat) :=
  omap (fun e => match e with StatsUpdate c => Some c | _ => None end) t.

Definition callback_calls (t : list (Event Frame)) : list (Z * Z) :=
  omap (fun e => match e with Callback i n => Some (i, n) | _ => None end) t.


Definition launched (t : list (Event Frame)) : list (list string * bool) :=
  omap (fun e => match e with
                 | SubprocessRun cmd check _ => Some (cmd, check)
                 | _ => None
                 end) t.





(** The class names detected in one frame. *)
Definition detections (model : YOLO Frame) (frame : Frame) : list string :=
  names model <$> boxes_cls (predict model frame Config.CONFIDENCE_THRESHOLD).


Definition has_boxes (model : YOLO Frame) (frame : Frame) : bool :=
  (0 <? length (boxes_cls (predict model frame Config.CONFIDENCE_THRESHOLD)))%nat.

(** Whether the loop reports progress: a callback and a positive total. *)
Definition progress_on (progress_callback : option ProgressCallback)
    (total_frames : Z) : bool :=
  match progress_callback with
  | Some _ => 0 <? total_frames
  | None => false
  end.

(** The decoder reported finite dimensions and a finite frame count, so
    that the three [int(...)] conversions return. *)
Definition props_finite (v : Video Frame) : Prop :=
  Py.is_finite (CAP_PROP_FRAME_WIDTH v) = true
  /\ Py.is_finite (CAP_PROP_FRAME_HEIGHT v) = true
  /\ Py.is_finite (CAP_PROP_FRAME_COUNT v) = true.

(** [total_frames], that is [int(cap.get(CAP_PROP_FRAME_COUNT))]. *)
Definition total_frames_of (v : Video Frame) : Z :=
  Py.truncate (CAP_PROP_FRAME_COUNT v).

(** The callback, when there is one, returns normally on every call. *)
Definition callback_returns (progress_callback : option ProgressCallback)
    : Prop :=
  match progress_callback with
  | Some callback => forall i n, outcome (callback i n) = inr tt
  | None => True
  end.

(** The events of the loop iteration that handles [frame] as number
    [frame_id], and of the iterations over the frames of [cap] that follow
    frame number [frame_id]. *)
Definition iteration_events (model : YOLO Frame)
    (progress_callback : option ProgressCallback) (total_frames : Z)
    (frame_id : Z) (frame : Frame) : list (Event Frame) :=
  let counts := Counter.of_list (detections model frame) in
  [CapRead (Some frame); Infer frame Config.CONFIDENCE_THRESHOLD]
  ++ (if has_boxes model frame
      then [StatsUpdate counts; Log (LogFrame frame_id total_frames counts)]
      else [])
  ++ trace_of (report_progress progress_callback frame_id total_frames)
  ++ [WriterWrite (plot (predict model frame Config.CONFIDENCE_THRESHOLD))].

Fixpoint loop_events (model : YOLO Frame)
    (progress_callback : option ProgressCallback) (total_frames : Z)
    (cap : list Frame) (frame_id : Z) : list (Event Frame) :=
  match cap with
  | [] => []
  | frame :: cap =>
      iteration_events model progress_callback total_frames (frame_id + 1) frame
      ++ loop_events model progress_callback total_frames cap (frame_id + 1)
  end.

(** The statistics after the frames of [cap], starting from [stats]. *)
Definition final_stats (model : YOLO Frame) (stats : gmap string nat)
    (cap : list Frame) : gmap string nat :=
  foldl (fun acc frame =>
           if has_boxes model frame
           then Counter.update acc (Counter.of_list (detections model frame))
           else acc) stats cap.

End Observations.

(** The events of [process_video_with_yolo] before its loop and after the
    last iteration. *)
Section Envelope.

Context {Frame : Type}.
Variable cv2 : string -> Video Frame.

Definition prelude (input_path output_path : string) : list (Event Frame) :=
  let v := cv2 input_path in
  [CapOpen input_path; CapOpen input_path; CapGet input_path;
   CapRelease input_path;
   WriterOpen output_path (VideoWriter_fourcc Config.VIDEO_CODEC)
     (Py.float_or (CAP_PROP_FPS v) Config.DEFAULT_FPS)
     (Py.truncate (CAP_PROP_FRAME_WIDTH v),
      Py.truncate (CAP_PROP_FRAME_HEIGHT v));
   Log (LogText "Starting PPE detection")].

Definition postlude (input_path : string) : list (Event Frame) :=
  [CapRead None; CapRelease input_path; WriterRelease;
   Log (LogText "PPE detection completed")].

(** The events of [process_uploaded_video] around its call of
    [process_video_with_yolo]. *)
Definition upload_prelude (uid : string) : list (Event Frame) :=
  [FileSave (upload_path uid);
   Log (LogText ("Saved uploaded file to " +:+ upload_path uid));
   UI (StProgress 0); UI StEmpty;
   UI (StSpinner "Analyzing video for PPE compliance...")].


(** Events that are neither a callback call nor a framework call. *)
Definition plain_event (e : Event Frame) : Prop :=
  match e with
  | Callback _ _ | UI _ => False
  | _ => True
  end.

End Envelope.

Definition occurrences (k : string) (l : list string) : nat :=
  length (filter (fun x => x = k) l).

(** ** A concrete run, used to evaluate the definitions *)

Module Example.

(** A double holding [m * 2^e], in canonical binary64 form. *)
Definition f64 (m e : Z) : spec_float := binary_normalize 53 1024 m e false.

(** Three frames; the container announces 2.5 frames and no frame rate. *)
Definition video : Video nat :=
  mkVideo [10; 20; 30]%nat (S754_zero false) (f64 640 0) (f64 480 0) (f64 5 (-1)).

(** One frame with a detection; the container announces one frame. *)
Definition clip : Video nat :=
  mkVideo [10]%nat (f64 30 0) (f64 640 0) (f64 480 0) (f64 1 0).

(** Metadata without a usable frame count. *)
Definition broken : Video nat :=
  mkVideo [10]%nat (f64 30 0) (f64 640 0) (f64 480 0) S754_nan.

Definition cv2 (path : string) : Video nat :=
  if String.eqb path "clip.mp4" then clip
  else if String.eqb path "broken.mp4" then broken
  else if String.eqb path "uploads/clip.mp4" then clip
  else video.

Definition model : YOLO nat :=
  mkYOLO
    (fun frame _ =>
       mkResults
         (if (frame =? 10)%nat then [0; 1; 0]
          else if (frame =? 20)%nat then [] else [1])
         (frame + 1000)%nat)
    (fun c => if c =? 0 then "helmet" else "vest").


(** The transcoder fails, or succeeds. *)
Definition failing (cmd : list string) : Z := 1.
Definition succeeding (cmd : list string) : Z := 0.

(** A callback without effects of its own. *)
Definition silent : ProgressCallback := fun _ _ => mret tt.

End Example.

(** ** Further observations on pipeline traces *)

Section WriterObservations.

Context {Frame : Type}.

(** The calls on the [cv2.VideoWriter], in order. *)
Definition writer_events (t : list (Event Frame)) : list (Event Frame) :=
  omap (fun e => match e with
                 | WriterOpen _ _ _ _ | WriterWrite _ | WriterRelease => Some e
                 | _ => None
                 end) t.

(** The [cap.release()] calls, by the path the capture was opened on. *)
Definition released (t : list (Event Frame)) : list string :=
  omap (fun e => match e with CapRelease p => Some p | _ => None end) t.

(** The frame numbers of the per-frame log lines. *)
Definition logged_frames (t : list (Event Frame)) : list Z :=
  omap (fun e => match e with
                 | Log (LogFrame i _ _) => Some i
                 | _ => None
                 end) t.

(** The 1-based positions, counted from [frame_id + 1], of the frames of
    [cap] in which the model finds a box. *)
Fixpoint box_positions (model : YOLO Frame) (cap : list Frame)
    (frame_id : Z) : list Z :=
  match cap with
  | [] => []
  | frame :: cap =>
      (if has_boxes model frame then [frame_id + 1] else [])
      ++ box_positions model cap (frame_id + 1)
  end.

End WriterObservations.

(** [bool(x)] of a Python number. *)
Definition num_truthy (x : Py.Num) : bool :=
  match x with
  | Py.Int z => negb (z =? 0)
  | Py.Float f => Py.float_truthy f
  end.

(** ** The page: [load_yolo_model], the [render_*] functions and [main] *)

Module App.

(** What can stop the page script: an exception of the pipeline, a failing
    [open], a failing model constructor, or the [StopException] of
    [st.stop()], which is not an [Exception]. *)
Inductive Exc : Type :=
| PipelineError (x : Py.Exc)
| OSError (path : string)
| LoadError
| StopException.

(** [isinstance(x, Exception)]. *)
Definition is_Exception (x : Exc) : bool :=
  match x with
  | StopException => false
  | _ => true
  end.

(** The blocks handed to [st.markdown], by what they hold; the card
    opening is the [div] of class [pro-card]. *)
Inductive Markup : Type :=
| CustomCss | HeaderBlock | StatsOverviewBlock | FooterBlock
| CardOpen | DivClose | LineBreak
| CardTitle (title : string)
| FeatureGrid | InfoGrid | ClassList
| ComparisonTitle | VideoContainerOpen
| VideoLabel (label : string).

Inductive Call (Frame : Type) : Type :=
| StSetPageConfig
| StMarkdown (m : Markup)
| StColumns
| StExpander
| StFileUploader
| StButton
| StSuccess
| StVideo (path : string)
| FileOpen (path : string)                 (* open(path, "rb") *)
| StDownloadButton (path file_name mime : string)
| LogInfo (msg : string)
| LogError (x : Exc)                       (* logger.error(f"...{e}") *)
| StError (x : Exc)                        (* st.error(f"...{e}") *)
| StStop
| NewYOLO (path : string)                  (* YOLO(str(MODEL_PATH)) *)
| Run (e : Event Frame).                   (* a call of the pipeline *)
Arguments StSetPageConfig {Frame}.
Arguments StMarkdown {Frame}.
Arguments StColumns {Frame}.
Arguments StExpander {Frame}.
Arguments StFileUploader {Frame}.
Arguments StButton {Frame}.
Arguments StSuccess {Frame}.
Arguments StVideo {Frame}.
Arguments FileOpen {Frame}.
Arguments StDownloadButton {Frame}.
Arguments LogInfo {Frame}.
Arguments LogError {Frame}.
Arguments StError {Frame}.
Arguments StStop {Frame}.
Arguments NewYOLO {Frame}.
Arguments Run {Frame}.

(** Computations of the page: a trace of calls and a value or the
    exception that ended the script. *)
Definition M (Frame A : Type) : Type := list (Call Frame) * (Exc + A).

Definition ret {Frame A} (a : A) : M Frame A := ([], inr a).

Definition bind {Frame A B} (m : M Frame A) (k : A -> M Frame B)
    : M Frame B :=
  match m with
  | (t, inr a) => let '(t', r) := k a in (t ++ t', r)
  | (t, inl x) => (t, inl x)
  end.

#[local] Instance M_ret {Frame} : MRet (M Frame) := fun A a => ret a.
#[local] Instance M_bind {Frame} : MBind (M Frame) :=
  fun A B k m => bind m k.

Definition call {Frame} (c : Call Frame) : M Frame unit := ([c], inr tt).

Definition throw {Frame A} (x : Exc) : M Frame A := ([], inl x).

(** [try: body  except Exception as e: handler(e)]. *)
Definition try_except {Frame A} (body : M Frame A)
    (handler : Exc -> M Frame A) : M Frame A :=
  match body with
  | (t, inl x) =>
      if is_Exception x
      then let '(t', r) := handler x in (t ++ t', r)
      else (t, inl x)
  | (t, inr a) => (t, inr a)
  end.

(** A call into the pipeline, its events and exception seen from the
    page. *)
Definition run {Frame A} (m : W (Event Frame) A) : M Frame A :=
  (Run <$> m.1,
   match m.2 with
   | inl x => inl (PipelineError x)
   | inr a => inr a
   end).


Section Page.

Context {Frame Upload : Type}.

(** The environment of one script run: the model constructor (which may
    raise), the state of the two widgets, which paths [open] can read,
    and the environment of the pipeline. *)
Variable new_YOLO : string -> option (YOLO Frame).
Variable file_uploader : option Upload.
Variable button : bool.
Variable readable : string -> bool.
Variable cv2_VideoCapture : string -> Video Frame.
Variable os_exec : list string -> Z.
Variable ffmpeg_exe : string.
Variable uuid4 : string.


Definition inject_custom_css : M Frame unit := call (StMarkdown CustomCss).

Definition render_header : M Frame unit := call (StMarkdown HeaderBlock).

Definition render_stats_overview : M Frame unit :=
  call (StMarkdown StatsOverviewBlock).

Definition render_features_section : M Frame unit :=
  _ ← call (StMarkdown CardOpen);
  _ ← call (StMarkdown (CardTitle "Key Features"));
  _ ← call (StMarkdown FeatureGrid);
  call (StMarkdown DivClose).

(** [return uploaded_video if process_btn else None]. *)
Definition render_upload_section : M Frame (option Upload) :=
  _ ← call (StMarkdown CardOpen);
  _ ← call (StMarkdown (CardTitle "Upload Video"));
  _ ← call StFileUploader;
  let uploaded_video := file_uploader in
  _ ← call (StMarkdown LineBreak);
  _ ← call StButton;
  let process_btn := button in
  _ ← call (StMarkdown DivClose);
  mret (if process_btn then uploaded_video else None).

Definition render_model_info : M Frame unit :=
  _ ← call (StMarkdown CardOpen);
  _ ← call (StMarkdown (CardTitle "Model Configuration"));
  _ ← call (StMarkdown InfoGrid);
  _ ← call StExpander;
  _ ← call (StMarkdown ClassList);
  call (StMarkdown DivClose).

Definition render_video_comparison (original_path processed_path : string)
    : M Frame unit :=
  _ ← call (StMarkdown ComparisonTitle);
  _ ← call StColumns;
  _ ← call (StMarkdown VideoContainerOpen);
  _ ← call (StMarkdown (VideoLabel "Original Video"));
  _ ← call (StVideo original_path);
  _ ← call (StMarkdown DivClose);
  _ ← call (StMarkdown VideoContainerOpen);
  _ ← call (StMarkdown (VideoLabel "Processed Video"));
  _ ← call (StVideo processed_path);
  call (StMarkdown DivClose).

Definition render_footer : M Frame unit := call (StMarkdown FooterBlock).

(** [open(path, "rb")]. *)
Definition open_rb (path : string) : M Frame unit :=
  _ ← call (FileOpen path);
  if readable path then mret tt else throw (OSError path).

Definition main (model : YOLO Frame) : M Frame unit :=
  _ ← inject_custom_css;
  _ ← render_header;
  _ ← render_stats_overview;
  _ ← call StColumns;
  uploaded_video ← render_upload_section;
  _ ← render_model_info;
  _ ← render_features_section;
  _ ← match uploaded_video with
      | Some uploaded_video =>
          try_except
            ('(input_path, output_path, stats) ←
               run (process_uploaded_video cv2_VideoCapture os_exec
                      ffmpeg_exe uuid4 model);
             _ ← call StSuccess;
             _ ← call (StMarkdown CardOpen);
             _ ← call (StMarkdown (CardTitle "Detection Results"));
             _ ← call (StMarkdown LineBreak);
             _ ← render_video_comparison input_path output_path;
             _ ← call (StMarkdown LineBreak);
             _ ← open_rb output_path;
             _ ← call (StDownloadButton output_path
                         "ppe_detection_output.mp4" "video/mp4");
             call (StMarkdown DivClose))
            (fun e =>
               _ ← call (LogError e);
               call (StError e))
      | None => mret tt
      end;
  render_footer.


End Page.

Section PageObservations.

Context {Frame : Type}.

Definition pipeline_events (t : list (Call Frame)) : list (Event Frame) :=
  omap (fun c => match c with Run e => Some e | _ => None end) t.

Definition errors_shown (t : list (Call Frame)) : list Exc :=
  omap (fun c => match c with StError x => Some x | _ => None end) t.

Definition successes (t : list (Call Frame)) : nat :=
  length (omap (fun c => match c with StSuccess => Some tt | _ => None end) t).

Definition videos_shown (t : list (Call Frame)) : list string :=
  omap (fun c => match c with StVideo p => Some p | _ => None end) t.

Definition downloads_offered (t : list (Call Frame)) : list string :=
  omap (fun c => match c with
                 | StDownloadButton p _ _ => Some p
                 | _ => None
                 end) t.

End PageObservations.

End App.

(** ** More concrete inputs *)

Module Example2.

(** An upload whose container reports an infinite height. *)
Definition damaged : Video nat :=
  mkVideo [10; 20]%nat (Example.f64 30 0) (Example.f64 640 0)
    (S754_infinity false) (Example.f64 2 0).

(** An upload announcing two frames and holding three. *)
Definition long : Video nat :=
  mkVideo [10; 20; 30]%nat (Example.f64 30 0) (Example.f64 640 0)
    (Example.f64 480 0) (Example.f64 2 0).

Definition cv2 (path : string) : Video nat :=
  if String.eqb path "uploads/damaged.mp4" then damaged
  else if String.eqb path "damaged.mp4" then damaged
  else if String.eqb path "uploads/long.mp4" then long
  else Example.video.

(** The frames of [Example.video] in another order. *)
Definition shuffled (path : string) : Video nat :=
  mkVideo [30; 10; 20]%nat (S754_zero false) (Example.f64 640 0)
    (Example.f64 480 0) (Example.f64 5 (-1)).

(** A callback that fails when told of the second frame. *)
Definition fragile : ProgressCallback :=
  fun i n =>
    if i =? 2 then ([StatusText i n], inl Py.ZeroDivisionError)
    else ([StatusText i n], inr tt).

Definition no_model (path : string) : option (YOLO nat) := None.
Definition the_model (path : string) : option (YOLO nat) := Some Example.model.

Definition all_readable (path : string) : bool := true.

End Example2.

(** * Properties *)

(** ** Counters *)

Lemma occurrences_nil k : occurrences k [] = 0%nat.
Proof. reflexivity. Qed.

Lemma occurrences_cons k x l :
  occurrences k (x :: l)
  = ((if decide (x = k) then 1 else 0) + occurrences k l)%nat.
Proof.
  unfold occurrences. rewrite filter_cons.
  destruct (decide (x = k)); reflexivity.
Qed.

Lemma occurrences_app k l1 l2 :
  occurrences k (l1 ++ l2) = (occurrences k l1 + occurrences k l2)%nat.
Proof. unfold occurrences. by rewrite filter_app, length_app. Qed.

Lemma occurrences_concat k (ls : list (list string)) :
  occurrences k (concat ls) = sum_list (occurrences k <$> ls).
Proof.
  induction ls as [|l ls IH]; simpl; [done|].
  by rewrite occurrences_app, IH.
Qed.

Lemma Counter_get_insert (c : gmap string nat) k j n :
  Counter.get (<[k := n]> c) j
  = if decide (k = j) then n else Counter.get c j.
Proof.
  unfold Counter.get. rewrite lookup_insert.
  destruct (decide (k = j)); reflexivity.
Qed.

(** A lookup in [stats.update(counts)]. *)
Lemma Counter_lookup_update (stats counts : gmap string nat) k :
  Counter.update stats counts !! k
  = match counts !! k with
    | Some n => Some (n + Counter.get stats k)%nat
    | None => stats !! k
    end.
Proof.
  revert k. unfold Counter.update.
  apply (map_fold_weak_ind
           (fun r (m : gmap string nat) =>
              forall k, r !! k = match m !! k with
                                 | Some n => Some (n + Counter.get stats k)%nat
                                 | None => stats !! k
                                 end)).
  - intros k. by rewrite lookup_empty.
  - intros i x m r Hi IH k.
    destruct (decide (i = k)) as [->|Hne].
    + rewrite !lookup_insert_eq. do 2 f_equal.
      unfold Counter.get. by rewrite IH, Hi.
    + rewrite !lookup_insert_ne by done. apply IH.
Qed.

Lemma Counter_get_update (stats counts : gmap string nat) k :
  Counter.get (Counter.update stats counts) k
  = (Counter.get stats k + Counter.get counts k)%nat.
Proof.
  unfold Counter.get at 1. rewrite Counter_lookup_update.
  unfold Counter.get. destruct (counts !! k); simpl; lia.
Qed.

Lemma Counter_update_empty (stats : gmap string nat) :
  Counter.update stats ∅ = stats.
Proof. unfold Counter.update. apply map_fold_empty. Qed.

(** A lookup in the counter built by a run of increments from [acc]. *)
Lemma Counter_lookup_increments (l : list string) (acc : gmap string nat) k :
  foldl (fun acc k => <[k := S (Counter.get acc k)]> acc) acc l !! k
  = match occurrences k l with
    | O => acc !! k
    | S n => Some (S n + Counter.get acc k)%nat
    end.
Proof.
  revert acc. induction l as [|x l IH]; intros acc; simpl; [done|].
  rewrite IH, occurrences_cons, Counter_get_insert, lookup_insert.
  destruct (decide (x = k)) as [->|Hne]; simpl.
  - destruct (occurrences k l); f_equal; lia.
  - reflexivity.
Qed.

Lemma Counter_lookup_of_list (l : list string) k :
  Counter.of_list l !! k
  = match occurrences k l with O => None | S n => Some (S n) end.
Proof.
  unfold Counter.of_list. rewrite Counter_lookup_increments.
  unfold Counter.get. rewrite lookup_empty. simpl.
  destruct (occurrences k l); [done|f_equal; lia].
Qed.

Lemma Counter_get_of_list (l : list string) k :
  Counter.get (Counter.of_list l) k = occurrences k l.
Proof.
  unfold Counter.get. rewrite Counter_lookup_of_list.
  by destruct (occurrences k l).
Qed.

(** Adding the counter of [l2] to the counter of [l1] gives the counter of
    the two lists together. *)
Lemma Counter_update_of_list (l1 l2 : list string) :
  Counter.update (Counter.of_list l1) (Counter.of_list l2)
  = Counter.of_list (l1 ++ l2).
Proof.
  apply map_eq. intros k.
  rewrite Counter_lookup_update, Counter_get_of_list.
  rewrite !Counter_lookup_of_list, occurrences_app.
  destruct (occurrences k l2), (occurrences k l1); simpl; f_equal; lia.
Qed.

(** ** Running computations *)

Lemma W_bind_returns {E A B} (k : A -> W E B) (t : list E) (a : A) :
  mbind k ((t, inr a) : W E A) = (t ++ (k a).1, (k a).2).
Proof. unfold mbind, W_bind. by destruct (k a). Qed.

Lemma W_bind_raises {E A B} (k : A -> W E B) (t : list E) (x : Py.Exc) :
  mbind k ((t, inl x) : W E A) = (t, inl x).
Proof. reflexivity. Qed.

Lemma W_bind_emit {E B} (k : unit -> W E B) (e : E) :
  mbind k (emit e) = (e :: (k tt).1, (k tt).2).
Proof. unfold emit. by rewrite W_bind_returns. Qed.

Lemma W_bind_eta {E A B} (k : A -> W E B) (m : W E A) (t : list E) (a : A) :
  m = (t, inr a) -> mbind k m = (t ++ (k a).1, (k a).2).
Proof. intros ->. apply W_bind_returns. Qed.

Lemma W_eta {E A} (m : W E A) : m = (m.1, m.2).
Proof. by destruct m. Qed.

Section Loop.

Context {Frame : Type}.
Implicit Types (model : YOLO Frame) (cap : list Frame).
Implicit Types (progress_callback : option ProgressCallback).

(** A returning callback leaves [report_progress] returning. *)
Lemma report_progress_returns progress_callback frame_id total_frames :
  callback_returns progress_callback ->
  outcome (report_progress (Frame:=Frame) progress_callback
             frame_id total_frames) = inr tt.
Proof.
  intros Hcb. unfold report_progress.
  destruct progress_callback as [callback|]; [|done].
  destruct (0 <? total_frames); [|done].
  rewrite W_bind_emit. simpl in *. apply Hcb.
Qed.

(** The loop returns on every capture, with the events of its iterations
    followed by the read that reports the end of the stream. *)
Lemma frame_loop_run model progress_callback total_frames cap stats frame_id :
  callback_returns progress_callback ->
  frame_loop model progress_callback total_frames cap stats frame_id
  = (loop_events model progress_callback total_frames cap frame_id
       ++ [CapRead None],
     inr (final_stats model stats cap)).
Proof.
  intros Hcb. revert stats frame_id.
  induction cap as [|frame cap IH]; intros stats frame_id; [done|].
  cbn [frame_loop loop_events final_stats foldl].
  unfold iteration_events, detections, has_boxes, trace_of.
  pose proof (report_progress_returns progress_callback (frame_id + 1)
                total_frames Hcb) as Hrp.
  destruct (report_progress progress_callback (frame_id + 1) total_frames)
    as [tp rp].
  unfold outcome in Hrp. cbn [fst snd] in *. subst rp.
  destruct (0 <? length (boxes_cls (predict model frame
                                     Config.CONFIDENCE_THRESHOLD)))%nat;
    unfold mbind, W_bind, mret, W_ret, emit; rewrite IH;
    cbn [app]; by rewrite <- ?app_assoc.
Qed.

End Loop.

(** ** Floats *)

Lemma int_of_float_finite (x : spec_float) :
  Py.is_finite x = true -> Py.int_of_float x = inr (Py.truncate x).
Proof. unfold Py.truncate. by destruct x. Qed.

(** [int] truncates towards zero: the magnitude of the result is the
    integer part of [m * 2^e], and the sign is kept. *)
Lemma truncate_finite (s : bool) (m : positive) (e : Z) :
  let z := Py.truncate (S754_finite s m e) in
  (if s then z <= 0 else 0 <= z)
  /\ (0 <= e -> Z.abs z = Z.pos m * 2 ^ e)
  /\ (e < 0 -> Z.abs z * 2 ^ (- e) <= Z.pos m < (Z.abs z + 1) * 2 ^ (- e)).
Proof.
  cbn [Py.truncate Py.int_of_float].
  destruct (Z.leb_spec 0 e) as [He|He].
  - assert (0 <= Z.pos m * 2 ^ e) by (apply Z.mul_nonneg_nonneg; lia).
    destruct s; (split; [lia|split; [intros _; lia|lia]]).
  - assert (Hp : 0 < 2 ^ (- e)) by (apply Z.pow_pos_nonneg; lia).
    pose proof (Z.div_pos (Z.pos m) _ ltac:(lia) Hp) as Hq.
    pose proof (Z.mul_div_le (Z.pos m) _ Hp) as Hlo.
    pose proof (Z.mul_succ_div_gt (Z.pos m) _ Hp) as Hhi.
    destruct s; (split; [lia|split; [lia|intros _]]).
    + rewrite Z.abs_opp, Z.abs_eq by lia. nia.
    + rewrite Z.abs_eq by lia. nia.
Qed.

Section Run.

Context {Frame : Type}.
Variable cv2 : string -> Video Frame.
Implicit Types (model : YOLO Frame) (cap : list Frame).
Implicit Types (progress_callback : option ProgressCallback).

Lemma get_video_properties_run (video_path : string) :
  props_finite (cv2 video_path) ->
  get_video_properties cv2 video_path
  = ([CapOpen video_path; CapGet video_path; CapRelease video_path],
     inr (Py.float_or (CAP_PROP_FPS (cv2 video_path)) Config.DEFAULT_FPS,
          Py.truncate (CAP_PROP_FRAME_WIDTH (cv2 video_path)),
          Py.truncate (CAP_PROP_FRAME_HEIGHT (cv2 video_path)),
          Py.truncate (CAP_PROP_FRAME_COUNT (cv2 video_path)))).
Proof.
  intros (Hw & Hh & Hn). unfold get_video_properties.
  rewrite (int_of_float_finite _ Hw), (int_of_float_finite _ Hh),
    (int_of_float_finite _ Hn).
  reflexivity.
Qed.

Lemma process_video_with_yolo_run input_path output_path model
    progress_callback :
  props_finite (cv2 input_path) ->
  callback_returns progress_callback ->
  process_video_with_yolo cv2 input_path output_path model progress_callback
  = (prelude cv2 input_path output_path
       ++ loop_events model progress_callback
            (total_frames_of (cv2 input_path)) (frames (cv2 input_path)) 0
       ++ postlude input_path,
     inr (final_stats model ∅ (frames (cv2 input_path)))).
Proof.
  intros Hv Hcb. unfold process_video_with_yolo.
  rewrite (get_video_properties_run _ Hv).
  unfold mbind, W_bind, mret, W_ret, emit.
  rewrite (frame_loop_run _ _ _ _ _ _ Hcb).
  unfold prelude, postlude, total_frames_of. cbn [app].
  by rewrite <- ?app_assoc.
Qed.

End Run.

(** ** What the loop does, observation by observation *)

Section Observed.

Context {Frame : Type}.
Implicit Types (model : YOLO Frame) (cap : list Frame).
Implicit Types (progress_callback : option ProgressCallback).

Lemma report_progress_trace progress_callback frame_id total_frames :
  trace_of (report_progress (Frame:=Frame) progress_callback
              frame_id total_frames)
  = match progress_callback with
    | Some callback =>
        if 0 <? total_frames
        then Callback frame_id total_frames
             :: (UI <$> trace_of (callback frame_id total_frames))
        else []
    | None => []
    end.
Proof.
  unfold report_progress, trace_of.
  destruct progress_callback as [callback|]; [|done].
  destruct (0 <? total_frames); [|done].
  by rewrite W_bind_emit.
Qed.

(** An observation that ignores framework calls sees nothing of the
    callback's own effects. *)
Lemma omap_UI {B} (g : Event Frame -> option B) (l : list UIEvent) :
  (forall u, g (UI u) = None) -> omap g (UI <$> l) = [].
Proof.
  intros Hg. induction l as [|u l IH]; [done|].
  cbn [fmap list_fmap omap list_omap]. by rewrite Hg.
Qed.

Lemma omap_report_progress {B} (g : Event Frame -> option B)
    progress_callback frame_id total_frames :
  (forall u, g (UI u) = None) ->
  omap g (trace_of (report_progress progress_callback frame_id total_frames))
  = if progress_on progress_callback total_frames
    then option_list (g (Callback frame_id total_frames))
    else [].
Proof.
  intros Hg. rewrite report_progress_trace. unfold progress_on.
  destruct progress_callback as [callback|]; [|done].
  destruct (0 <? total_frames); [|done].
  cbn [omap list_omap]. rewrite (omap_UI g _ Hg).
  by destruct (g (Callback frame_id total_frames)).
Qed.

(** One iteration, seen through an observation that ignores framework
    calls. *)
Lemma omap_iteration {B} (g : Event Frame -> option B) model
    progress_callback total_frames frame_id frame :
  (forall u, g (UI u) = None) ->
  let counts := Counter.of_list (detections model frame) in
  omap g (iteration_events model progress_callback total_frames
            frame_id frame)
  = option_list (g (CapRead (Some frame)))
    ++ option_list (g (Infer frame Config.CONFIDENCE_THRESHOLD))
    ++ (if has_boxes model frame
        then option_list (g (StatsUpdate counts))
             ++ option_list (g (Log (LogFrame frame_id total_frames counts)))
        else [])
    ++ (if progress_on progress_callback total_frames
        then option_list (g (Callback frame_id total_frames))
        else [])
    ++ option_list
         (g (WriterWrite
               (plot (predict model frame Config.CONFIDENCE_THRESHOLD)))).
Proof.
  intros Hg counts. unfold iteration_events.
  rewrite !omap_app, (omap_report_progress g _ _ _ Hg).
  fold counts.
  destruct (has_boxes model frame),
    (progress_on progress_callback total_frames);
    cbn [omap list_omap option_list app];
    repeat case_match; reflexivity.
Qed.

Ltac observe_loop cap IH :=
  let frame := fresh "frame" in
  induction cap as [|frame cap IH]; intros;
  [ try reflexivity
  | cbn [loop_events]; rewrite omap_app, omap_iteration by done;
    cbn [option_list app]; rewrite ?app_nil_r ].





Lemma callback_calls_loop model progress_callback total_frames cap :
  forall frame_id,
    callback_calls
      (loop_events model progress_callback total_frames cap frame_id)
    = if progress_on progress_callback total_frames
      then (fun i => (i, total_frames))
             <$> seqZ (frame_id + 1) (Z.of_nat (length cap))
      else [].
Proof.
  unfold callback_calls. observe_loop cap IH.
  - by case_match.
  - rewrite IH. cbn [length].
    rewrite (seqZ_cons (frame_id + 1)) by lia.
    replace (Z.pred (Z.of_nat (S (length cap)))) with (Z.of_nat (length cap))
      by lia.
    replace (Z.succ (frame_id + 1)) with (frame_id + 1 + 1) by lia.
    by repeat case_match.
Qed.


End Observed.

(** ** The statistics *)

Section Statistics.

Context {Frame : Type}.
Implicit Types (model : YOLO Frame) (cap : list Frame).

Lemma has_boxes_detections model frame :
  has_boxes model frame = (0 <? length (detections model frame))%nat.
Proof. unfold has_boxes, detections. by rewrite length_fmap. Qed.

Lemma no_boxes_no_detections model frame :
  has_boxes model frame = false -> detections model frame = [].
Proof.
  rewrite has_boxes_detections. destruct (detections model frame); [done|].
  simpl. discriminate.
Qed.

(** Starting from the counter of [seen], the loop ends with the counter of
    [seen] followed by everything detected in the frames of [cap]. *)
Lemma final_stats_of_list model (seen : list string) cap :
  final_stats model (Counter.of_list seen) cap
  = Counter.of_list (seen ++ concat (detections model <$> cap)).
Proof.
  revert seen. induction cap as [|frame cap IH]; intros seen.
  - simpl. by rewrite app_nil_r.
  - unfold final_stats in *. cbn [foldl fmap list_fmap concat].
    destruct (has_boxes model frame) eqn:Hb.
    + by rewrite Counter_update_of_list, IH, app_assoc.
    + rewrite (no_boxes_no_detections _ _ Hb). apply IH.
Qed.

Lemma final_stats_empty model cap :
  final_stats model ∅ cap = Counter.of_list (concat (detections model <$> cap)).
Proof. apply (final_stats_of_list model []). Qed.


End Statistics.

(** ** The progress callback of the upload pipeline *)



(** ** Claims about [process_video_with_yolo] *)

Section Claims.

Context {Frame : Type}.
Variable cv2 : string -> Video Frame.
Implicit Types (model : YOLO Frame).
Implicit Types (progress_callback : option ProgressCallback).


(** C3.  The returned Counter is the Counter of all class names detected
    over the whole video: for every class name its count is the sum over
    the frames of the number of detections of that class in the frame, a
    frame without detections adding nothing. *)
Theorem stats_sum_of_frame_counts input_path output_path model
    progress_callback :
  props_finite (cv2 input_path) ->
  callback_returns progress_callback ->
  exists stats,
    outcome (process_video_with_yolo cv2 input_path output_path model
               progress_callback) = inr stats
    /\ stats
       = Counter.of_list (concat (detections model <$> frames (cv2 input_path)))
    /\ (forall name,
          Counter.get stats name
          = sum_list ((fun frame => occurrences name (detections model frame))
                        <$> frames (cv2 input_path)))
    /\ stats
       = final_stats model ∅
           (filter (fun frame => detections model frame <> [])
              (frames (cv2 input_path))).
Proof.
  intros Hv Hcb. eexists. split; [|split; [|split]].
  - rewrite (process_video_with_yolo_run cv2 _ _ _ _ Hv Hcb). reflexivity.
  - apply final_stats_empty.
  - intros name. rewrite final_stats_empty, Counter_get_of_list.
    by rewrite occurrences_concat, <- list_fmap_compose.
  - generalize (∅ : gmap string nat).
    induction (frames (cv2 input_path)) as [|frame cap IH]; intros stats;
      [done|].
    rewrite filter_cons. unfold final_stats in *. cbn [foldl].
    destruct (has_boxes model frame) eqn:Hb.
    + rewrite decide_True; [cbn [foldl]; rewrite Hb; apply IH|].
      rewrite has_boxes_detections in Hb.
      destruct (detections model frame); [discriminate|done].
    + rewrite decide_False; [apply IH|].
      rewrite (no_boxes_no_detections _ _ Hb). tauto.
Qed.


(** C6.  With a callback supplied and a positive total frame count
    [total_frames], the callback is called once per processed frame, with
    the arguments (1, total), (2, total), ..., (N, total), N the number of
    frames read; with a total that is not positive it is never called. *)
Theorem callback_once_per_frame input_path output_path model
    (callback : ProgressCallback) :
  props_finite (cv2 input_path) ->
  callback_returns (Some callback) ->
  let calls :=
    callback_calls
      (trace_of (process_video_with_yolo cv2 input_path output_path model
                   (Some callback))) in
  let total := total_frames_of (cv2 input_path) in
  let N := Z.of_nat (length (frames (cv2 input_path))) in
  (0 < total -> calls = (fun i => (i, total)) <$> seqZ 1 N)
  /\ (total <= 0 -> calls = []).
Proof.
  intros Hv Hcb calls total N. subst calls.
  rewrite (process_video_with_yolo_run cv2 _ _ _ _ Hv Hcb).
  unfold trace_of. cbn [fst].
  unfold callback_calls. rewrite !omap_app.
  fold (callback_calls
          (loop_events model (Some callback)
             (total_frames_of (cv2 input_path))
             (frames (cv2 input_path)) 0)).
  rewrite callback_calls_loop. fold total. fold N.
  cbn [omap list_omap prelude postlude app progress_on].
  rewrite app_nil_r. split; intros Ht.
  - by rewrite (proj2 (Z.ltb_lt 0 total) Ht).
  - by rewrite (proj2 (Z.ltb_ge 0 total) Ht).
Qed.

End Claims.

(** ** Properties of every event of a run, returning or not *)

Section Everywhere.

Context {E : Type} (P : E -> Prop).





End Everywhere.

Section EverywhereInPipeline.

Context {Frame : Type} (P : Event Frame -> Prop).
Variable progress_callback : option ProgressCallback.
Implicit Types (model : YOLO Frame).

Hypothesis P_plain : forall e, plain_event e -> P e.
Hypothesis P_call : forall i n, 0 < n -> P (Callback i n).
Hypothesis P_body :
  forall callback i n,
    progress_callback = Some callback -> 0 < n ->
    Forall P (UI <$> trace_of (callback i n)).




End EverywhereInPipeline.

(** ** The upload pipeline and the transcoder *)

Section Upload.

Context {Frame : Type}.
Variable cv2 : string -> Video Frame.
Variable os_exec : list string -> Z.
Variables ffmpeg_exe uuid4 : string.
Implicit Types (model : YOLO Frame).




(** C10.  [encode_to_h264] returns normally whatever the transcoder's
    exit status: the status is not checked, so the function's result and
    the command it launches are the same for a failing and for a
    succeeding transcoder. *)
Theorem encode_ignores_exit_status (os_exec' : list string -> Z)
    input_path output_path :
  let run := encode_to_h264 (Frame:=Frame) os_exec ffmpeg_exe
               input_path output_path in
  let run' := encode_to_h264 (Frame:=Frame) os_exec' ffmpeg_exe
                input_path output_path in
  outcome run = inr tt
  /\ outcome run = outcome run'
  /\ launched (trace_of run) = launched (trace_of run')
  /\ launched (trace_of run)
     = [(h264_command ffmpeg_exe input_path output_path, false)].
Proof. by repeat split. Qed.

End Upload.

(** Had the exit status been checked, a failing transcoder would raise. *)
Lemma subprocess_run_check_raises :
  outcome (subprocess_run (Frame:=nat) Example.failing ["ffmpeg"] true)
  = inl (Py.CalledProcessError 1)
  /\ outcome (subprocess_run (Frame:=nat) Example.failing ["ffmpeg"] false)
     = inr 1.
Proof. by split. Qed.

Section Order.

Context {Frame : Type}.
Variable cv2 : string -> Video Frame.
Variable os_exec : list string -> Z.
Variables ffmpeg_exe uuid4 : string.
Implicit Types (model : YOLO Frame).
Implicit Types (progress_callback : option ProgressCallback).





End Order.

(** ** Two runs *)

Section Determinism.

Context {Frame : Type}.
Implicit Types (model : YOLO Frame).
Implicit Types (progress_callback : option ProgressCallback).



End Determinism.

(** ** The claims on a concrete run *)

Lemma silent_returns : callback_returns (Some Example.silent).
Proof. intros i n. reflexivity. Qed.




Lemma stats_sum_of_frame_counts_witness :
  props_finite (Example.cv2 "video.mp4")
  /\ callback_returns (Some Example.silent)
  /\ exists stats,
       outcome (process_video_with_yolo Example.cv2 "video.mp4" "out.mp4"
                  Example.model (Some Example.silent)) = inr stats
       /\ Counter.get stats "helmet" = 2%nat
       /\ Counter.get stats "vest" = 2%nat
       /\ Counter.get stats "mask" = 0%nat.
Proof.
  assert (Hv : props_finite (Example.cv2 "video.mp4")) by (by repeat split).
  split; [exact Hv|split; [exact silent_returns|]].
  destruct (stats_sum_of_frame_counts Example.cv2 "video.mp4" "out.mp4"
              Example.model (Some Example.silent) Hv silent_returns)
    as (stats & Hout & _ & Hget & _).
  exists stats. split; [exact Hout|].
  rewrite (Hget "helmet"), (Hget "vest"), (Hget "mask").
  vm_compute. repeat split.
Defined.



Lemma callback_once_per_frame_witness :
  props_finite (Example.cv2 "video.mp4")
  /\ callback_returns (Some Example.silent)
  /\ 0 < total_frames_of (Example.cv2 "video.mp4")
  /\ callback_calls
       (trace_of (process_video_with_yolo Example.cv2 "video.mp4" "out.mp4"
                    Example.model (Some Example.silent)))
     = [(1, 2); (2, 2); (3, 2)].
Proof.
  assert (Hv : props_finite (Example.cv2 "video.mp4")) by (by repeat split).
  assert (Ht : 0 < total_frames_of (Example.cv2 "video.mp4"))
    by (by vm_compute).
  split; [exact Hv|split; [exact silent_returns|split; [exact Ht|]]].
  exact (proj1 (callback_once_per_frame Example.cv2 "video.mp4" "out.mp4"
                  Example.model Example.silent Hv silent_returns) Ht).
Defined.



(** * Further properties of the pipeline *)

(** ** Metadata the decoder cannot vouch for *)

Section Metadata.

Context {Frame : Type}.
Variable cv2 : string -> Video Frame.
Implicit Types (model : YOLO Frame).
Implicit Types (progress_callback : option ProgressCallback).

Lemma int_of_float_raises (x : spec_float) :
  Py.is_finite x = false ->
  exists e, Py.int_of_float x = inl e
            /\ (e = Py.ValueError \/ e = Py.OverflowError).
Proof. destruct x; try discriminate; intros _; eexists; eauto. Qed.

Lemma props_finite_dec (v : Video Frame) :
  props_finite v
  \/ Py.is_finite (CAP_PROP_FRAME_WIDTH v) = false
  \/ (Py.is_finite (CAP_PROP_FRAME_WIDTH v) = true
      /\ Py.is_finite (CAP_PROP_FRAME_HEIGHT v) = false)
  \/ (Py.is_finite (CAP_PROP_FRAME_WIDTH v) = true
      /\ Py.is_finite (CAP_PROP_FRAME_HEIGHT v) = true
      /\ Py.is_finite (CAP_PROP_FRAME_COUNT v) = false).
Proof.
  unfold props_finite.
  destruct (Py.is_finite (CAP_PROP_FRAME_WIDTH v)),
    (Py.is_finite (CAP_PROP_FRAME_HEIGHT v)),
    (Py.is_finite (CAP_PROP_FRAME_COUNT v)); tauto.
Qed.

(** When a property is a NaN or an infinity, [get_video_properties]
    raises out of the first failing [int(...)], having opened its capture
    and never releasing it. *)
Lemma get_video_properties_raises (video_path : string) :
  ~ props_finite (cv2 video_path) ->
  exists e,
    get_video_properties cv2 video_path
    = ([CapOpen video_path; CapGet video_path], inl e)
    /\ (e = Py.ValueError \/ e = Py.OverflowError).
Proof.
  intros Hnot. unfold get_video_properties.
  destruct (props_finite_dec (cv2 video_path))
    as [Hv|[Hw|[[Hw Hh]|(Hw & Hh & Hn)]]]; [done|..].
  - destruct (int_of_float_raises _ Hw) as (e & -> & He). by exists e.
  - destruct (int_of_float_raises _ Hh) as (e & -> & He).
    rewrite (int_of_float_finite _ Hw). by exists e.
  - destruct (int_of_float_raises _ Hn) as (e & -> & He).
    rewrite (int_of_float_finite _ Hw), (int_of_float_finite _ Hh).
    by exists e.
Qed.

(** X1.  [get_video_properties] returns exactly when width, height and
    frame count are finite doubles; otherwise it raises [ValueError] (a
    NaN) or [OverflowError] (an infinity) and its capture is left
    unreleased. *)
Theorem get_video_properties_returns_iff (video_path : string) :
  ((exists r, outcome (get_video_properties cv2 video_path) = inr r)
   <-> props_finite (cv2 video_path))
  /\ (forall e,
        outcome (get_video_properties cv2 video_path) = inl e ->
        (e = Py.ValueError \/ e = Py.OverflowError)
        /\ released (trace_of (get_video_properties cv2 video_path)) = []).
Proof.
  destruct (props_finite_dec (cv2 video_path)) as [Hv|Hbad].
  - rewrite (get_video_properties_run cv2 _ Hv). split.
    + split; [done|]. intros _. by eexists.
    + intros e [=].
  - assert (Hnot : ~ props_finite (cv2 video_path)).
    { intros (Hw & Hh & Hn).
      destruct Hbad as [?|[[_ ?]|(_ & _ & ?)]]; congruence. }
    destruct (get_video_properties_raises _ Hnot) as (e & -> & He).
    split.
    + split; [by intros [r [=]]|done].
    + by intros e' [= <-].
Qed.

Lemma process_video_with_yolo_raises input_path output_path model
    progress_callback :
  ~ props_finite (cv2 input_path) ->
  exists e,
    process_video_with_yolo cv2 input_path output_path model
      progress_callback
    = ([CapOpen input_path; CapOpen input_path; CapGet input_path], inl e)
    /\ (e = Py.ValueError \/ e = Py.OverflowError).
Proof.
  intros Hnot. unfold process_video_with_yolo.
  destruct (get_video_properties_raises _ Hnot) as (e & -> & He).
  by exists e.
Qed.

(** X2.  With such metadata [process_video_with_yolo] raises before its
    loop: the input is opened twice and queried, and then nothing more
    happens; no frame is read or inferred on, the writer is never
    opened, and neither capture is released. *)
Theorem bad_metadata_stops_before_loop input_path output_path model
    progress_callback :
  ~ props_finite (cv2 input_path) ->
  exists e,
    process_video_with_yolo cv2 input_path output_path model
      progress_callback
    = ([CapOpen input_path; CapOpen input_path; CapGet input_path], inl e)
    /\ (e = Py.ValueError \/ e = Py.OverflowError)
    /\ reads (trace_of (process_video_with_yolo cv2 input_path output_path
                          model progress_callback)) = []
    /\ writer_events (trace_of (process_video_with_yolo cv2 input_path
                                  output_path model progress_callback)) = []
    /\ released (trace_of (process_video_with_yolo cv2 input_path output_path
                             model progress_callback)) = [].
Proof.
  intros Hnot.
  destruct (process_video_with_yolo_raises input_path output_path model
              progress_callback Hnot) as (e & Heq & He).
  exists e. rewrite Heq. by repeat split.
Qed.

End Metadata.

Lemma get_video_properties_returns_iff_witness :
  outcome (get_video_properties Example2.cv2 "damaged.mp4")
  = inl Py.OverflowError
  /\ released (trace_of (get_video_properties Example2.cv2 "damaged.mp4"))
     = [].
Proof.
  split; [reflexivity|].
  exact (proj2 (proj2 (get_video_properties_returns_iff Example2.cv2
                         "damaged.mp4") Py.OverflowError eq_refl)).
Defined.

Lemma bad_metadata_stops_before_loop_witness :
  ~ props_finite (Example2.cv2 "damaged.mp4")
  /\ exists e,
       process_video_with_yolo Example2.cv2 "damaged.mp4" "out.mp4"
         Example.model None
       = ([CapOpen "damaged.mp4"; CapOpen "damaged.mp4";
           CapGet "damaged.mp4"], inl e)
       /\ (e = Py.ValueError \/ e = Py.OverflowError).
Proof.
  assert (Hnot : ~ props_finite (Example2.cv2 "damaged.mp4"))
    by (intros (_ & Hh & _); discriminate Hh).
  split; [exact Hnot|].
  destruct (bad_metadata_stops_before_loop Example2.cv2 "damaged.mp4"
              "out.mp4" Example.model None Hnot) as (e & Heq & He & _).
  exists e. split; [exact Heq|exact He].
Defined.

(** ** The writer, the log and the Counter on a returning run *)

Section Returning.

Context {Frame : Type}.
Variable cv2 : string -> Video Frame.
Implicit Types (model : YOLO Frame) (cap : list Frame).
Implicit Types (progress_callback : option ProgressCallback).

Ltac loop_induction cap IH :=
  let frame := fresh "frame" in
  induction cap as [|frame cap IH]; intros;
  [ try reflexivity
  | cbn [loop_events]; rewrite omap_app, omap_iteration by done;
    cbn [option_list app]; rewrite ?app_nil_r ].

Lemma writer_events_loop model progress_callback total_frames cap :
  forall frame_id,
    writer_events
      (loop_events model progress_callback total_frames cap frame_id)
    = (fun frame =>
         WriterWrite (plot (predict model frame Config.CONFIDENCE_THRESHOLD)))
        <$> cap.
Proof.
  unfold writer_events. loop_induction cap IH.
  rewrite IH. by repeat case_match.
Qed.

Lemma released_loop model progress_callback total_frames cap :
  forall frame_id,
    released (loop_events model progress_callback total_frames cap frame_id)
    = [].
Proof.
  unfold released. loop_induction cap IH.
  rewrite IH. by repeat case_match.
Qed.

Lemma stats_updates_loop model progress_callback total_frames cap :
  forall frame_id,
    stats_updates
      (loop_events model progress_callback total_frames cap frame_id)
    = (fun frame => Counter.of_list (detections model frame))
        <$> filter (fun frame => has_boxes model frame = true) cap.
Proof.
  unfold stats_updates. loop_induction cap IH.
  rewrite IH, filter_cons.
  destruct (has_boxes model frame); simpl; by repeat case_match.
Qed.

Lemma logged_frames_loop model progress_callback total_frames cap :
  forall frame_id,
    logged_frames
      (loop_events model progress_callback total_frames cap frame_id)
    = box_positions model cap frame_id.
Proof.
  unfold logged_frames. loop_induction cap IH.
  rewrite IH. cbn [box_positions].
  destruct (has_boxes model frame); simpl; by repeat case_match.
Qed.

Lemma final_stats_filter model stats cap :
  final_stats model stats cap
  = foldl Counter.update stats
      ((fun frame => Counter.of_list (detections model frame))
         <$> filter (fun frame => has_boxes model frame = true) cap).
Proof.
  revert stats. unfold final_stats.
  induction cap as [|frame cap IH]; intros stats; [done|].
  rewrite filter_cons. cbn [foldl].
  destruct (has_boxes model frame); simpl; apply IH.
Qed.

Lemma float_or_truthy (x : spec_float) (d : Z) :
  d <> 0 -> num_truthy (Py.float_or x d) = true.
Proof.
  intros Hd. unfold Py.float_or.
  destruct (Py.float_truthy x) eqn:Hx; simpl; [done|].
  by destruct (Z.eqb_spec d 0).
Qed.

(** X3.  On a returning run the writer is opened once, before the first
    write, on the output path, with the four-character code of mp4v
    (0x7634706D), the size from [get_video_properties] and a frame rate
    that is never falsy; it then receives one write per frame and is
    released once, after the last write.  The two captures are both
    released. *)
Theorem writer_lifecycle input_path output_path model progress_callback :
  props_finite (cv2 input_path) ->
  callback_returns progress_callback ->
  let run :=
    process_video_with_yolo cv2 input_path output_path model
      progress_callback in
  let v := cv2 input_path in
  exists fps,
    writer_events (trace_of run)
    = WriterOpen output_path 1983148141 fps
        (Py.truncate (CAP_PROP_FRAME_WIDTH v),
         Py.truncate (CAP_PROP_FRAME_HEIGHT v))
      :: ((fun frame =>
             WriterWrite
               (plot (predict model frame Config.CONFIDENCE_THRESHOLD)))
            <$> frames v)
      ++ [WriterRelease]
    /\ num_truthy fps = true
    /\ released (trace_of run) = [input_path; input_path].
Proof.
  intros Hv Hcb run v. subst run v.
  rewrite (process_video_with_yolo_run cv2 _ _ _ _ Hv Hcb).
  unfold trace_of. cbn [fst].
  exists (Py.float_or (CAP_PROP_FPS (cv2 input_path)) Config.DEFAULT_FPS).
  split; [|split].
  - unfold writer_events. rewrite !omap_app.
    fold (writer_events
            (loop_events model progress_callback
               (total_frames_of (cv2 input_path))
               (frames (cv2 input_path)) 0)).
    rewrite writer_events_loop. reflexivity.
  - by apply float_or_truthy.
  - unfold released. rewrite !omap_app.
    fold (released
            (loop_events model progress_callback
               (total_frames_of (cv2 input_path))
               (frames (cv2 input_path)) 0)).
    rewrite released_loop. reflexivity.
Qed.

(** X4.  [stats.update] is called, and a frame line logged, for exactly
    the frames in which the model finds a box, in order, with the Counter
    of that frame's names and the frame's 1-based number; the Counter
    returned is the accumulation of those updates from the empty one. *)
Theorem updates_only_for_frames_with_boxes input_path output_path model
    progress_callback :
  props_finite (cv2 input_path) ->
  callback_returns progress_callback ->
  let run :=
    process_video_with_yolo cv2 input_path output_path model
      progress_callback in
  stats_updates (trace_of run)
  = (fun frame => Counter.of_list (detections model frame))
      <$> filter (fun frame => has_boxes model frame = true)
            (frames (cv2 input_path))
  /\ logged_frames (trace_of run)
     = box_positions model (frames (cv2 input_path)) 0
  /\ outcome run = inr (foldl Counter.update ∅ (stats_updates (trace_of run))).
Proof.
  intros Hv Hcb run. subst run.
  rewrite (process_video_with_yolo_run cv2 _ _ _ _ Hv Hcb).
  unfold trace_of, outcome. cbn [fst snd].
  assert (stats_updates
            (prelude cv2 input_path output_path
             ++ loop_events model progress_callback
                  (total_frames_of (cv2 input_path))
                  (frames (cv2 input_path)) 0
             ++ postlude input_path)
          = (fun frame => Counter.of_list (detections model frame))
              <$> filter (fun frame => has_boxes model frame = true)
                    (frames (cv2 input_path))) as ->.
  { unfold stats_updates. rewrite !omap_app.
    fold (stats_updates
            (loop_events model progress_callback
               (total_frames_of (cv2 input_path))
               (frames (cv2 input_path)) 0)).
    rewrite stats_updates_loop.
    cbn [omap list_omap prelude postlude app]. by rewrite app_nil_r. }
  split; [done|split].
  - unfold logged_frames. rewrite !omap_app.
    fold (logged_frames
            (loop_events model progress_callback
               (total_frames_of (cv2 input_path))
               (frames (cv2 input_path)) 0)).
    rewrite logged_frames_loop.
    cbn [omap list_omap prelude postlude app]. by rewrite app_nil_r.
  - by rewrite final_stats_filter.
Qed.

Lemma occurrences_zero (k : string) (l : list string) :
  occurrences k l = 0%nat <-> k ∉ l.
Proof.
  induction l as [|x l IH].
  { split; [intros _; apply not_elem_of_nil|done]. }
  rewrite occurrences_cons, not_elem_of_cons.
  destruct (decide (x = k)) as [->|Hne]; simpl.
  - split; [discriminate|]. by intros [[] _].
  - rewrite IH. split; [intros Hl; split; [congruence|done]|by intros [_ Hl]].
Qed.

(** X5.  The returned Counter has a key for a class name exactly when
    that name is detected in some frame, and every count it stores is
    positive: a class that never shows is absent, not zero. *)
Theorem stats_keys_are_detected_names input_path output_path model
    progress_callback :
  props_finite (cv2 input_path) ->
  callback_returns progress_callback ->
  exists stats : gmap string nat,
    outcome (process_video_with_yolo cv2 input_path output_path model
               progress_callback) = inr stats
    /\ (forall name,
          is_Some (stats !! name)
          <-> exists frame, frame ∈ frames (cv2 input_path)
                            /\ name ∈ detections model frame)
    /\ (forall name n, stats !! name = Some n -> (0 < n)%nat).
Proof.
  intros Hv Hcb.
  rewrite (process_video_with_yolo_run cv2 _ _ _ _ Hv Hcb).
  eexists. split; [reflexivity|]. rewrite final_stats_empty. split.
  - intros name. rewrite Counter_lookup_of_list.
    assert ((exists frame, frame ∈ frames (cv2 input_path)
                           /\ name ∈ detections model frame)
            <-> name ∈ concat (detections model <$> frames (cv2 input_path)))
      as ->.
    { induction (frames (cv2 input_path)) as [|frame cap IH].
      - simpl. split; [intros (? & Hin & _)|intros Hin];
          by apply elem_of_nil in Hin.
      - cbn [fmap list_fmap concat]. rewrite elem_of_app, <- IH.
        setoid_rewrite elem_of_cons. split.
        + intros (f & [->|Hin] & Hn); [by left|right; eauto].
        + intros [Hn|(f & Hin & Hn)]; [exists frame|exists f]; auto. }
    pose proof (occurrences_zero name
                  (concat (detections model <$> frames (cv2 input_path))))
      as Hz.
    destruct (occurrences name _) as [|n].
    + split; [by intros [? [=]]|]. intros Hin. by apply Hz in Hin.
    + split; [|by eexists]. intros _.
      destruct (decide (name ∈ concat
                          (detections model <$> frames (cv2 input_path))))
        as [|Hnot]; [done|]. apply Hz in Hnot. discriminate.
  - intros name n. rewrite Counter_lookup_of_list.
    destruct (occurrences name _); [discriminate|]. intros [= <-]. lia.
Qed.

End Returning.

Lemma example_video_props : props_finite (Example.cv2 "video.mp4").
Proof. by repeat split. Qed.

Lemma writer_lifecycle_witness :
  props_finite (Example.cv2 "video.mp4")
  /\ callback_returns (Some Example.silent)
  /\ exists fps,
       writer_events
         (trace_of (process_video_with_yolo Example.cv2 "video.mp4"
                      "out.mp4" Example.model (Some Example.silent)))
       = [WriterOpen "out.mp4" 1983148141 fps (640, 480);
          WriterWrite 1010%nat; WriterWrite 1020%nat; WriterWrite 1030%nat;
          WriterRelease]
       /\ num_truthy fps = true.
Proof.
  split; [exact example_video_props|split; [exact silent_returns|]].
  destruct (writer_lifecycle Example.cv2 "video.mp4" "out.mp4" Example.model
              (Some Example.silent) example_video_props silent_returns)
    as (fps & Hw & Hfps & _).
  exists fps. split; [exact Hw|exact Hfps].
Defined.

Lemma updates_only_for_frames_with_boxes_witness :
  props_finite (Example.cv2 "video.mp4")
  /\ callback_returns (Some Example.silent)
  /\ logged_frames
       (trace_of (process_video_with_yolo Example.cv2 "video.mp4" "out.mp4"
                    Example.model (Some Example.silent)))
     = [1; 3].
Proof.
  split; [exact example_video_props|split; [exact silent_returns|]].
  exact (proj1 (proj2 (updates_only_for_frames_with_boxes Example.cv2
                         "video.mp4" "out.mp4" Example.model
                         (Some Example.silent)
                         example_video_props silent_returns))).
Defined.

Lemma stats_keys_are_detected_names_witness :
  props_finite (Example.cv2 "video.mp4")
  /\ callback_returns (Some Example.silent)
  /\ exists stats : gmap string nat,
       outcome (process_video_with_yolo Example.cv2 "video.mp4" "out.mp4"
                  Example.model (Some Example.silent)) = inr stats
       /\ is_Some (stats !! "helmet").
Proof.
  split; [exact example_video_props|split; [exact silent_returns|]].
  destruct (stats_keys_are_detected_names Example.cv2 "video.mp4" "out.mp4"
              Example.model (Some Example.silent)
              example_video_props silent_returns)
    as (stats & Hout & Hkeys & _).
  exists stats. split; [exact Hout|].
  apply (proj2 (Hkeys "helmet")). exists 10%nat.
  split; apply list_elem_of_In; vm_compute; tauto.
Defined.

(** ** Frame order and the statistics *)

Section FrameOrder.

Context {Frame : Type}.
Implicit Types (model : YOLO Frame).
Implicit Types (progress_callback : option ProgressCallback).

Lemma Counter_of_list_occurrences (l1 l2 : list string) :
  (forall k, occurrences k l1 = occurrences k l2) ->
  Counter.of_list l1 = Counter.of_list l2.
Proof.
  intros Hocc. apply map_eq. intros k.
  by rewrite !Counter_lookup_of_list, Hocc.
Qed.

(** X6.  The statistics do not depend on the order of the frames: two
    returning runs over videos whose frames are a permutation of each
    other return the same Counter. *)
Theorem stats_invariant_under_frame_order (cv2 cv2' : string -> Video Frame)
    input_path input_path' output_path output_path' model
    progress_callback progress_callback' :
  props_finite (cv2 input_path) ->
  props_finite (cv2' input_path') ->
  callback_returns progress_callback ->
  callback_returns progress_callback' ->
  frames (cv2 input_path) ≡ₚ frames (cv2' input_path') ->
  outcome (process_video_with_yolo cv2 input_path output_path model
             progress_callback)
  = outcome (process_video_with_yolo cv2' input_path' output_path' model
               progress_callback').
Proof.
  intros Hv Hv' Hcb Hcb' Hperm.
  rewrite (process_video_with_yolo_run cv2 _ _ _ _ Hv Hcb).
  rewrite (process_video_with_yolo_run cv2' _ _ _ _ Hv' Hcb').
  unfold outcome. cbn [snd]. f_equal. rewrite !final_stats_empty.
  apply Counter_of_list_occurrences. intros k.
  rewrite !occurrences_concat, <- !list_fmap_compose.
  by rewrite Hperm.
Qed.

End FrameOrder.

Lemma stats_invariant_under_frame_order_witness :
  outcome (process_video_with_yolo Example.cv2 "video.mp4" "out.mp4"
             Example.model None)
  = outcome (process_video_with_yolo Example2.shuffled "video.mp4" "out.mp4"
               Example.model None).
Proof.
  apply (stats_invariant_under_frame_order Example.cv2 Example2.shuffled).
  - exact example_video_props.
  - by repeat split.
  - exact I.
  - exact I.
  - change ([10; 20; 30]%nat ≡ₚ [30; 10; 20]%nat).
    symmetry. apply (Permutation_cons_append [10; 20]%nat 30%nat).
Defined.

(** ** A callback that raises *)

Section Interrupted.

Context {Frame : Type}.
Implicit Types (model : YOLO Frame) (cap : list Frame).

Lemma trace_of_pair {E A} (t : list E) (r : Py.Exc + A) :
  trace_of ((t, r) : W E A) = t.
Proof. reflexivity. Qed.

Lemma outcome_pair {E A} (t : list E) (r : Py.Exc + A) :
  outcome ((t, r) : W E A) = r.
Proof. reflexivity. Qed.

(** One turn of the loop: the events up to the callback, and then either
    the callback's exception or the write and the remaining turns. *)
Lemma frame_loop_cons model progress_callback total_frames frame cap
    stats frame_id :
  frame_loop model progress_callback total_frames (frame :: cap) stats
    frame_id
  = let counts := Counter.of_list (detections model frame) in
    let rp := report_progress progress_callback (frame_id + 1) total_frames in
    let before :=
      [CapRead (Some frame); Infer frame Config.CONFIDENCE_THRESHOLD]
      ++ (if has_boxes model frame
          then [StatsUpdate counts;
                Log (LogFrame (frame_id + 1) total_frames counts)]
          else [])
      ++ trace_of rp in
    match outcome rp with
    | inl x => (before, inl x)
    | inr _ =>
        let rest :=
          frame_loop model progress_callback total_frames cap
            (if has_boxes model frame then Counter.update stats counts
             else stats) (frame_id + 1) in
        (before
         ++ WriterWrite (plot (predict model frame Config.CONFIDENCE_THRESHOLD))
         :: trace_of rest,
         outcome rest)
    end.
Proof.
  cbn [frame_loop]. cbv zeta.
  unfold has_boxes, detections, trace_of, outcome.
  destruct (report_progress progress_callback (frame_id + 1) total_frames)
    as [tp [x|[]]];
    destruct (0 <? length (boxes_cls (predict model frame
                                       Config.CONFIDENCE_THRESHOLD)))%nat;
    unfold mbind, W_bind, mret, W_ret, emit; cbn [fst snd app];
    try reflexivity;
    match goal with
    | |- context [frame_loop ?m ?c ?t ?l ?s ?i] =>
        destruct (frame_loop m c t l s i) as [tr rr]
    end; cbn [fst snd app]; by rewrite <- ?app_assoc.
Qed.

Lemma report_progress_outcome (callback : ProgressCallback) frame_id
    total_frames :
  0 < total_frames ->
  outcome (report_progress (Frame:=Frame) (Some callback) frame_id
             total_frames)
  = outcome (callback frame_id total_frames).
Proof.
  intros Hpos. unfold report_progress.
  rewrite (proj2 (Z.ltb_lt 0 total_frames) Hpos), W_bind_emit.
  reflexivity.
Qed.

(** The events of a turn up to and including the callback, through an
    observation that ignores framework calls. *)
Lemma omap_before {B} (g : Event Frame -> option B) model
    (callback : ProgressCallback) total_frames frame_id frame :
  (forall u, g (UI u) = None) ->
  0 < total_frames ->
  let counts := Counter.of_list (detections model frame) in
  omap g
    ([CapRead (Some frame); Infer frame Config.CONFIDENCE_THRESHOLD]
     ++ (if has_boxes model frame
         then [StatsUpdate counts;
               Log (LogFrame frame_id total_frames counts)]
         else [])
     ++ trace_of (report_progress (Some callback) frame_id total_frames))
  = option_list (g (CapRead (Some frame)))
    ++ option_list (g (Infer frame Config.CONFIDENCE_THRESHOLD))
    ++ (if has_boxes model frame
        then option_list (g (StatsUpdate counts))
             ++ option_list (g (Log (LogFrame frame_id total_frames counts)))
        else [])
    ++ option_list (g (Callback frame_id total_frames)).
Proof.
  intros Hg Hpos counts.
  rewrite !omap_app, (omap_report_progress g _ _ _ Hg).
  cbn [progress_on]. rewrite (proj2 (Z.ltb_lt 0 total_frames) Hpos).
  destruct (has_boxes model frame);
    cbn [omap list_omap option_list app];
    repeat case_match; reflexivity.
Qed.

(** When the callback raises on its call for frame number
    [frame_id + 1 + j], having returned before, the loop ends there. *)
Lemma frame_loop_interrupted model (callback : ProgressCallback)
    total_frames (x : Py.Exc) :
  0 < total_frames ->
  forall cap (j : nat) stats frame_id,
    (j < length cap)%nat ->
    (forall i : nat,
       (i < j)%nat ->
       outcome (callback (frame_id + 1 + Z.of_nat i) total_frames) = inr tt) ->
    outcome (callback (frame_id + 1 + Z.of_nat j) total_frames) = inl x ->
    let r :=
      frame_loop model (Some callback) total_frames cap stats frame_id in
    outcome r = inl x
    /\ inferred_frames (trace_of r) = take (S j) cap
    /\ reads (trace_of r) = Some <$> take (S j) cap
    /\ callback_calls (trace_of r)
       = (fun i => (i, total_frames))
           <$> seqZ (frame_id + 1) (Z.of_nat (S j))
    /\ writer_events (trace_of r)
       = (fun frame =>
            WriterWrite
              (plot (predict model frame Config.CONFIDENCE_THRESHOLD)))
           <$> take j cap
    /\ released (trace_of r) = [].
Proof.
  intros Hpos cap.
  induction cap as [|frame cap IH]; intros j stats frame_id Hj Hret Hraise;
    [simpl in Hj; lia|].
  cbv zeta. rewrite frame_loop_cons. cbv zeta.
  rewrite (report_progress_outcome _ _ _ Hpos).
  destruct j as [|j].
  - replace (frame_id + 1 + Z.of_nat 0) with (frame_id + 1) in Hraise by lia.
    rewrite Hraise. rewrite !trace_of_pair, outcome_pair.
    unfold inferred_frames, reads, callback_calls, writer_events, released.
    rewrite !omap_before by done.
    rewrite seqZ_cons, seqZ_nil by lia.
    repeat split; destruct (has_boxes model frame); reflexivity.
  - pose proof (Hret O ltac:(lia)) as H0.
    replace (frame_id + 1 + Z.of_nat 0) with (frame_id + 1) in H0 by lia.
    rewrite H0.
    destruct (IH j
                (if has_boxes model frame
                 then Counter.update stats
                        (Counter.of_list (detections model frame))
                 else stats) (frame_id + 1))
      as (Hout & Hinf & Hrd & Hcalls & Hwr & Hrel).
    { simpl in Hj. lia. }
    { intros i Hi.
      replace (frame_id + 1 + 1 + Z.of_nat i)
        with (frame_id + 1 + Z.of_nat (S i)) by lia.
      apply Hret. lia. }
    { replace (frame_id + 1 + 1 + Z.of_nat j)
        with (frame_id + 1 + Z.of_nat (S j)) by lia.
      exact Hraise. }
    rewrite !trace_of_pair, outcome_pair.
    split; [exact Hout|].
    unfold inferred_frames, reads, callback_calls, writer_events, released
      in *.
    rewrite !(omap_app _ _ (WriterWrite _ :: _)), !omap_before by done.
    cbn [omap list_omap].
    rewrite Hinf, Hrd, Hcalls, Hwr, Hrel.
    rewrite (seqZ_cons (frame_id + 1) (Z.of_nat (S (S j)))) by lia.
    replace (Z.pred (Z.of_nat (S (S j)))) with (Z.of_nat (S j)) by lia.
    replace (Z.succ (frame_id + 1)) with (frame_id + 1 + 1) by lia.
    repeat split; destruct (has_boxes model frame); reflexivity.
Qed.

End Interrupted.

Section InterruptedRun.

Context {Frame : Type}.
Variable cv2 : string -> Video Frame.
Implicit Types (model : YOLO Frame).

(** X7.  The callback is called before the frame is written and nothing
    guards the call: when it raises on its call for frame number [j + 1],
    the exception leaves [process_video_with_yolo]; by then [j + 1]
    frames were read and inferred on but only [j] written, the writer was
    never released and the loop's capture neither (the one release is
    that of [get_video_properties]). *)
Theorem callback_exception_stops_loop input_path output_path model
    (callback : ProgressCallback) (x : Py.Exc) (j : nat) :
  props_finite (cv2 input_path) ->
  0 < total_frames_of (cv2 input_path) ->
  (j < length (frames (cv2 input_path)))%nat ->
  (forall i : nat,
     (i < j)%nat ->
     outcome (callback (1 + Z.of_nat i) (total_frames_of (cv2 input_path)))
     = inr tt) ->
  outcome (callback (1 + Z.of_nat j) (total_frames_of (cv2 input_path)))
  = inl x ->
  let run :=
    process_video_with_yolo cv2 input_path output_path model
      (Some callback) in
  outcome run = inl x
  /\ inferred_frames (trace_of run) = take (S j) (frames (cv2 input_path))
  /\ written_frames (trace_of run)
     = (fun frame => plot (predict model frame Config.CONFIDENCE_THRESHOLD))
         <$> take j (frames (cv2 input_path))
  /\ callback_calls (trace_of run)
     = (fun i => (i, total_frames_of (cv2 input_path)))
         <$> seqZ 1 (Z.of_nat (S j))
  /\ (WriterRelease ∉ writer_events (trace_of run))
  /\ released (trace_of run) = [input_path].
Proof.
  intros Hv Hpos Hj Hret Hraise run.
  destruct (frame_loop_interrupted model callback
              (total_frames_of (cv2 input_path)) x Hpos
              (frames (cv2 input_path)) j ∅ 0 Hj Hret Hraise)
    as (Hout & Hinf & _ & Hcalls & Hwr & Hrel).
  assert (run
          = (prelude cv2 input_path output_path
             ++ trace_of (frame_loop model (Some callback)
                            (total_frames_of (cv2 input_path))
                            (frames (cv2 input_path)) ∅ 0),
             inl x)) as ->.
  { subst run. unfold process_video_with_yolo.
    rewrite (get_video_properties_run cv2 _ Hv).
    unfold mbind, W_bind, mret, W_ret, emit.
    unfold total_frames_of, outcome, trace_of in *.
    destruct (frame_loop model (Some callback)
                (Py.truncate (CAP_PROP_FRAME_COUNT (cv2 input_path)))
                (frames (cv2 input_path)) ∅ 0) as [t r].
    cbn [fst snd] in *. subst r. reflexivity. }
  rewrite !trace_of_pair, outcome_pair.
  unfold inferred_frames, written_frames, callback_calls, writer_events,
    released in *.
  rewrite !omap_app, Hinf, Hcalls, Hwr, Hrel.
  cbn [omap list_omap prelude app].
  split; [done|split; [done|split; [|split; [done|split; [|done]]]]].
  - assert (forall t : list (Event Frame),
              omap (fun e => match e with
                             | WriterWrite a => Some a
                             | _ => None
                             end) t
              = omap (fun e => match e with
                               | WriterWrite a => Some a
                               | _ => None
                               end) (writer_events t)) as Hw.
    { intros t. induction t as [|e t IHt]; [done|].
      unfold writer_events in *. destruct e; cbn [omap list_omap];
        by rewrite ?IHt. }
    rewrite Hw. unfold writer_events. rewrite Hwr.
    clear. generalize (take j (frames (cv2 input_path))). intros l.
    induction l as [|frame l IHl]; [reflexivity|].
    cbn [fmap list_fmap omap list_omap]. by rewrite IHl.
  - rewrite not_elem_of_cons. split; [done|].
    intros Hin. apply list_elem_of_fmap in Hin as (frame & [=] & _).
Qed.

End InterruptedRun.

Lemma callback_exception_stops_loop_witness :
  outcome (process_video_with_yolo Example.cv2 "video.mp4" "out.mp4"
             Example.model (Some Example2.fragile))
  = inl Py.ZeroDivisionError
  /\ inferred_frames
       (trace_of (process_video_with_yolo Example.cv2 "video.mp4" "out.mp4"
                    Example.model (Some Example2.fragile)))
     = [10; 20]%nat
  /\ written_frames
       (trace_of (process_video_with_yolo Example.cv2 "video.mp4" "out.mp4"
                    Example.model (Some Example2.fragile)))
     = [1010]%nat.
Proof.
  assert (Hpos : 0 < total_frames_of (Example.cv2 "video.mp4"))
    by (by vm_compute).
  destruct (callback_exception_stops_loop Example.cv2 "video.mp4" "out.mp4"
              Example.model Example2.fragile Py.ZeroDivisionError 1
              example_video_props Hpos)
    as (Hout & Hinf & Hwr & _).
  - simpl. lia.
  - intros i Hi. assert (i = O) as -> by lia. reflexivity.
  - reflexivity.
  - split; [exact Hout|split; [exact Hinf|exact Hwr]].
Defined.

(** ** The files of a run *)

Lemma list_ascii_of_string_app (s1 s2 : string) :
  String.list_ascii_of_string (s1 +:+ s2)
  = String.list_ascii_of_string s1 ++ String.list_ascii_of_string s2.
Proof. induction s1 as [|c s1 IH]; simpl; [done|by rewrite IH]. Qed.

Lemma list_ascii_of_string_inj (s1 s2 : string) :
  String.list_ascii_of_string s1 = String.list_ascii_of_string s2 -> s1 = s2.
Proof.
  intros Heq.
  rewrite <- (String.string_of_list_ascii_of_string s1),
    <- (String.string_of_list_ascii_of_string s2).
  by rewrite Heq.
Qed.

Lemma length_list_ascii_of_string (s : string) :
  length (String.list_ascii_of_string s) = String.length s.
Proof. induction s as [|c s IH]; simpl; [done|by rewrite IH]. Qed.

(** Two strings with suffixes of one length are equal only when both the
    stems and the suffixes are. *)
Lemma append_inj_suffix (s1 s2 t1 t2 : string) :
  String.length t1 = String.length t2 ->
  s1 +:+ t1 = s2 +:+ t2 -> s1 = s2 /\ t1 = t2.
Proof.
  intros Hlen Heq.
  apply (f_equal String.list_ascii_of_string) in Heq.
  rewrite !list_ascii_of_string_app in Heq.
  apply app_inj_2 in Heq as [H1 H2].
  - split; by apply list_ascii_of_string_inj.
  - by rewrite !length_list_ascii_of_string.
Qed.

Lemma append_assoc (s1 s2 s3 : string) :
  (s1 +:+ s2) +:+ s3 = s1 +:+ (s2 +:+ s3).
Proof.
  induction s1 as [|c s1 IH]; [reflexivity|].
  change (String c ((s1 +:+ s2) +:+ s3) = String c (s1 +:+ (s2 +:+ s3))).
  by rewrite IH.
Qed.

(** X8.  The three paths of a run never coincide, nor do the paths of two
    runs with different ids: the writer cannot overwrite an upload, the
    transcoder never reads the file it writes, and distinct runs share no
    file. *)
Theorem run_paths_never_collide (uid uid' : string) :
  upload_path uid <> temp_path uid'
  /\ upload_path uid <> final_path uid'
  /\ temp_path uid <> final_path uid'
  /\ (uid <> uid' ->
      upload_path uid <> upload_path uid'
      /\ temp_path uid <> temp_path uid'
      /\ final_path uid <> final_path uid').
Proof.
  unfold upload_path, temp_path, final_path, path_join,
    Config.UPLOAD_DIR, Config.OUTPUT_DIR.
  assert (Hdir : forall r r', "uploads" +:+ r <> "outputs" +:+ r').
  { intros r r' Heq. apply (f_equal (String.get 0)) in Heq.
    cbv in Heq. discriminate. }
  split; [apply Hdir|split; [apply Hdir|split]].
  - intros Heq. do 2 apply (inj (String.append _)) in Heq.
    change "_temp.mp4" with ("_tem" +:+ "p.mp4") in Heq.
    change "_final.mp4" with ("_fina" +:+ "l.mp4") in Heq.
    rewrite <- !append_assoc in Heq.
    by apply append_inj_suffix in Heq as [_ [=]].
  - intros Hne. repeat split; intros Heq;
      do 2 apply (inj (String.append _)) in Heq;
      by apply append_inj_suffix in Heq as [? _].
Qed.

Lemma run_paths_never_collide_witness :
  "a" <> "b"
  /\ temp_path "a" <> final_path "a"
  /\ temp_path "a" <> temp_path "b".
Proof.
  assert (Hne : "a" <> "b") by discriminate.
  split; [exact Hne|].
  destruct (run_paths_never_collide "a" "b") as (_ & _ & _ & Hdiff).
  destruct (run_paths_never_collide "a" "a") as (_ & _ & Htf & _).
  destruct (Hdiff Hne) as (_ & Htt & _).
  split; [exact Htf|exact Htt].
Defined.

(** ** More on the upload pipeline *)

Section UploadMore.

Context {Frame : Type}.
Variable cv2 : string -> Video Frame.
Variable os_exec : list string -> Z.
Variables ffmpeg_exe uuid4 : string.
Implicit Types (model : YOLO Frame) (cap : list Frame).




(** X11.  When the decoder's metadata for the upload is not finite, the
    pipeline raises after saving the upload and opening it: no frame is
    written, the transcoder is never launched, and the progress widgets
    are never cleared. *)
Theorem upload_with_bad_metadata model :
  ~ props_finite (cv2 (upload_path uuid4)) ->
  exists e,
    process_uploaded_video cv2 os_exec ffmpeg_exe uuid4 model
    = (upload_prelude uuid4
         ++ [CapOpen (upload_path uuid4); CapOpen (upload_path uuid4);
             CapGet (upload_path uuid4)],
       inl e)
    /\ (e = Py.ValueError \/ e = Py.OverflowError)
    /\ launched (trace_of (process_uploaded_video cv2 os_exec ffmpeg_exe
                             uuid4 model)) = []
    /\ written_frames (trace_of (process_uploaded_video cv2 os_exec
                                   ffmpeg_exe uuid4 model)) = [].
Proof.
  intros Hnot.
  destruct (process_video_with_yolo_raises cv2 (upload_path uuid4)
              (temp_path uuid4) model (Some update_progress) Hnot)
    as (e & Hrun & He).
  exists e.
  assert (process_uploaded_video cv2 os_exec ffmpeg_exe uuid4 model
          = (upload_prelude uuid4
               ++ [CapOpen (upload_path uuid4); CapOpen (upload_path uuid4);
                   CapGet (upload_path uuid4)],
             inl e)) as ->.
  { unfold process_uploaded_video, save_uploaded_file. by rewrite Hrun. }
  by repeat split.
Qed.

End UploadMore.


Lemma damaged_upload_props :
  ~ props_finite (Example2.cv2 (upload_path "damaged")).
Proof. intros (_ & Hh & _). discriminate Hh. Qed.



Lemma upload_with_bad_metadata_witness :
  ~ props_finite (Example2.cv2 (upload_path "damaged"))
  /\ exists e,
       outcome (process_uploaded_video Example2.cv2 Example.succeeding
                  "ffmpeg" "damaged" Example.model) = inl e
       /\ launched (trace_of (process_uploaded_video Example2.cv2
                                Example.succeeding "ffmpeg" "damaged"
                                Example.model)) = [].
Proof.
  split; [exact damaged_upload_props|].
  destruct (upload_with_bad_metadata Example2.cv2 Example.succeeding "ffmpeg"
              "damaged" Example.model damaged_upload_props)
    as (e & Heq & _ & Hl & _).
  exists e. split; [by rewrite Heq|exact Hl].
Defined.

(** * The page *)

Section PageFacts.

Context {Frame Upload : Type}.
Variable new_YOLO : string -> option (YOLO Frame).
Variable file_uploader : option Upload.
Variable button : bool.
Variable readable : string -> bool.
Variable cv2 : string -> Video Frame.
Variable os_exec : list string -> Z.
Variables ffmpeg_exe uuid4 : string.
Implicit Types (model : YOLO Frame).

Lemma omap_Run_ignored {B} (g : App.Call Frame -> option B)
    (t : list (Event Frame)) :
  (forall e, g (App.Run e) = None) -> omap g (App.Run <$> t) = [].
Proof.
  intros Hg. induction t as [|e t IH]; [done|].
  cbn [fmap list_fmap omap list_omap]. by rewrite Hg.
Qed.

Lemma pipeline_events_Run (t : list (Event Frame)) :
  omap (fun c => match c with App.Run e => Some e | _ => None end)
    (App.Run <$> t) = t.
Proof.
  induction t as [|e t IH]; [done|].
  cbn [fmap list_fmap omap list_omap]. by rewrite IH.
Qed.

(** Unfolds [main] down to its calls, and splits on the widgets, on how
    the pipeline ended and on whether the final file can be opened. *)
Ltac page_cases model :=
  unfold App.main, App.inject_custom_css, App.render_header,
    App.render_stats_overview, App.render_upload_section,
    App.render_model_info, App.render_features_section,
    App.render_video_comparison, App.render_footer, App.open_rb;
  unfold mbind, mret, App.M_bind, App.M_ret, App.bind, App.ret, App.call,
    App.throw, App.try_except, App.run;
  destruct button; [destruct file_uploader as [?u|]|];
  [ destruct (process_uploaded_video cv2 os_exec ffmpeg_exe uuid4 model)
      as [?t [?x|[[?i ?o] ?stats]]];
    cbn [app fst snd App.is_Exception];
    try match goal with
        | |- context [readable ?p] => destruct (readable p) eqn:?Hread
        end
  | | ];
  cbn [app fst snd App.is_Exception].



(** X13.  The pipeline runs exactly when a file is uploaded and the
    button is pressed in the same script run: the pipeline calls in the
    page's trace are those of one [process_uploaded_video] then, and none
    otherwise (a file without the button, or the button without a file,
    saves, decodes and launches nothing). *)
Theorem pipeline_runs_iff_file_and_button model :
  App.pipeline_events
    (App.main file_uploader button readable cv2 os_exec ffmpeg_exe uuid4
       model).1
  = if button && bool_decide (is_Some file_uploader)
    then trace_of (process_uploaded_video cv2 os_exec ffmpeg_exe uuid4 model)
    else [].
Proof.
  page_cases model; try reflexivity; unfold App.pipeline_events, trace_of;
    cbn [omap list_omap fst]; rewrite !omap_app, (pipeline_events_Run t);
    cbn [omap list_omap andb]; rewrite !app_nil_r;
    by rewrite bool_decide_eq_true_2 by (by eexists).
Qed.

Ltac page_unfold :=
  unfold App.main, App.inject_custom_css, App.render_header,
    App.render_stats_overview, App.render_upload_section,
    App.render_model_info, App.render_features_section,
    App.render_video_comparison, App.render_footer, App.open_rb;
  unfold mbind, mret, App.M_bind, App.M_ret, App.bind, App.ret, App.call,
    App.throw, App.try_except, App.run.

Ltac observe_page :=
  unfold App.errors_shown, App.successes, App.videos_shown,
    App.downloads_offered;
  cbn [omap list_omap]; rewrite ?omap_app, ?omap_Run_ignored by done;
  cbn [omap list_omap app length].

(** X14.  An exception raised by the pipeline is caught by [main] and
    shown: the page displays exactly one error, that exception, and
    neither the success message, nor a video, nor a download button. *)
Theorem pipeline_error_is_reported model (u : Upload) (x : Py.Exc) :
  button = true ->
  file_uploader = Some u ->
  outcome (process_uploaded_video cv2 os_exec ffmpeg_exe uuid4 model)
  = inl x ->
  let page := App.main file_uploader button readable cv2 os_exec ffmpeg_exe
                uuid4 model in
  App.errors_shown page.1 = [App.PipelineError x]
  /\ App.successes page.1 = 0%nat
  /\ App.videos_shown page.1 = []
  /\ App.downloads_offered page.1 = [].
Proof.
  intros Hb Hf Hx. cbv zeta. page_unfold. rewrite Hb, Hf.
  destruct (process_uploaded_video cv2 os_exec ffmpeg_exe uuid4 model)
    as [t r].
  unfold outcome in Hx. cbn [snd] in Hx. subst r.
  cbn [app fst snd App.is_Exception].
  repeat split; observe_page; reflexivity.
Qed.



End PageFacts.

Lemma pipeline_error_is_reported_witness :
  outcome (process_uploaded_video Example2.cv2 Example.succeeding "ffmpeg"
             "damaged" Example.model) = inl Py.OverflowError
  /\ App.errors_shown
       (App.main (Some tt) true Example2.all_readable Example2.cv2
          Example.succeeding "ffmpeg" "damaged" Example.model).1
     = [App.PipelineError Py.OverflowError].
Proof.
  assert (Hx : outcome (process_uploaded_video Example2.cv2
                          Example.succeeding "ffmpeg" "damaged"
                          Example.model) = inl Py.OverflowError)
    by reflexivity.
  split; [exact Hx|].
  exact (proj1 (pipeline_error_is_reported (Some tt) true
                  Example2.all_readable Example2.cv2 Example.succeeding
                  "ffmpeg" "damaged" Example.model tt Py.OverflowError
                  eq_refl eq_refl Hx)).
Defined.

